(** * The FIDL JSON generator (system/host/fidl/lib/json_generator.cpp)

    A shallow embedding of the generator that turns a resolved FIDL library
    into its JSON intermediate representation, and the properties of the
    document it writes.

    The generator object holds an output stream [json_file_] and the counter
    [indent_level_]; every member function is a state transformer over these
    two fields.  The free functions named [Emit...] write to a stream and are
    functions from the stream's content to its new content. *)

From Stdlib Require Import String Ascii List ZArith NArith Lia Bool DecimalString.
Import ListNotations.

Local Open Scope string_scope.
Local Open Scope Z_scope.

(** ** Characters and text *)

Definition dquote : ascii := "034"%char.
Definition backslash : ascii := "092"%char.
Definition linefeed : ascii := "010"%char.

Definition str (c : ascii) : string := String c EmptyString.

(** [constexpr const char* kIndent] : two spaces. *)
Definition kIndent : string := "  ".

(** ** The Emit functions (lines 135-216): the only writers of the stream *)

Module Emit.

Definition EmitBoolean (file : string) (value : bool) : string :=
  if value then file ++ "true" else file ++ "false".

(** One turn of the loop of [EmitString]: the [switch] on the character. *)
Definition EmitString_char (file : string) (c : ascii) : string :=
  if Ascii.eqb c dquote then file ++ String backslash (str dquote)
  else if Ascii.eqb c backslash then file ++ String backslash (str backslash)
  else file ++ str c.

Fixpoint EmitString_loop (file : string) (value : string) : string :=
  match value with
  | EmptyString => file
  | String c rest => EmitString_loop (EmitString_char file c) rest
  end.

Definition EmitString (file : string) (value : string) : string :=
  EmitString_loop (file ++ str dquote) value ++ str dquote.

(** [sputn] of the bytes of the view: nothing is added or changed. *)
Definition EmitLiteral (file : string) (value : string) : string :=
  file ++ value.

(** [operator<<] on an unsigned integer writes its decimal digits. *)
Definition decimal (value : N) : string :=
  NilZero.string_of_uint (N.to_uint value).

Definition EmitUint32 (file : string) (value : N) : string :=
  file ++ decimal value.

Definition EmitUint64 (file : string) (value : N) : string :=
  file ++ decimal value.

Definition EmitNewline (file : string) : string :=
  file ++ str linefeed.

(** [while (indent_level--) *file << kIndent;] entered with a level that is
    not negative runs [indent_level] times.  The generator never passes a
    negative level (the counter starts at 0 and is only decremented after an
    increment). *)
Fixpoint EmitIndent_loop (file : string) (count : nat) : string :=
  match count with
  | O => file
  | S count' => EmitIndent_loop (file ++ kIndent) count'
  end.

Definition EmitNewlineAndIndent (file : string) (indent_level : Z) : string :=
  EmitIndent_loop (file ++ str linefeed) (Z.to_nat indent_level).

Definition EmitObjectBegin (file : string) : string := file ++ "{".

Definition EmitObjectSeparator (file : string) (indent_level : Z) : string :=
  EmitNewlineAndIndent (file ++ ",") indent_level.

Definition EmitObjectEnd (file : string) : string := file ++ "}".

Definition EmitObjectKey (file : string) (indent_level : Z) (key : string)
  : string :=
  EmitString file key ++ ": ".

Definition EmitArrayBegin (file : string) : string := file ++ "[".

Definition EmitArraySeparator (file : string) (indent_level : Z) : string :=
  EmitNewlineAndIndent (file ++ ",") indent_level.

Definition EmitArrayEnd (file : string) : string := file ++ "]".

End Emit.
Export Emit.

(** ** The generator state and its monad *)

Record JSONGenerator : Type := mkGen {
  json_file_ : string;
  indent_level_ : Z
}.

Definition Gen (A : Type) : Type := JSONGenerator -> A * JSONGenerator.

Definition ret {A} (a : A) : Gen A := fun g => (a, g).

Definition bind {A B} (c : Gen A) (k : A -> Gen B) : Gen B :=
  fun g => let (a, g') := c g in k a g'.

Declare Scope gen_scope.
Delimit Scope gen_scope with gen.
Notation "x <- c ;; k" := (bind c (fun x => k))
  (at level 61, c at next level, right associativity) : gen_scope.
Notation "c ;; k" := (bind c (fun _ => k))
  (at level 61, right associativity) : gen_scope.
Local Open Scope gen_scope.

(** Read the counter. *)
Definition indent_level : Gen Z := fun g => (indent_level_ g, g).

(** [++indent_level_] and [--indent_level_]: the value of the expression is
    the updated counter. *)
Definition incr_indent_level : Gen Z :=
  fun g => (indent_level_ g + 1, mkGen (json_file_ g) (indent_level_ g + 1)).

Definition decr_indent_level : Gen Z :=
  fun g => (indent_level_ g - 1, mkGen (json_file_ g) (indent_level_ g - 1)).

(** Apply an Emit function to [&json_file_]. *)
Definition emit (f : string -> string) : Gen unit :=
  fun g => (tt, mkGen (f (json_file_ g)) (indent_level_ g)).

Definition when (b : bool) (c : Gen unit) : Gen unit :=
  if b then c else ret tt.

(** ** The structural builder (lines 220-269) *)

Inductive Position : Type := First | Subsequent.

(** The overloads of [Generate], one instance per argument type. *)
Class Generator (T : Type) : Type := Generate : T -> Gen unit.

Definition GenerateEOF : Gen unit := emit EmitNewline.

(** The [for] loop of [GenerateArray], entered at index [i] with the
    elements from [collection[i]] on. *)
Fixpoint GenerateArray_loop {T} `{Generator T} (i : nat) (rest : list T)
  : Gen unit :=
  match rest with
  | [] => ret tt
  | x :: rest' =>
      when (negb (Nat.eqb i 0))
           (n <- indent_level ;; emit (fun f => EmitArraySeparator f n)) ;;
      Generate x ;;
      GenerateArray_loop (S i) rest'
  end.

Definition empty {T} (collection : list T) : bool :=
  match collection with [] => true | _ => false end.

Definition GenerateArray {T} `{Generator T} (collection : list T) : Gen unit :=
  emit EmitArrayBegin ;;
  when (negb (empty collection))
       (n <- incr_indent_level ;; emit (fun f => EmitNewlineAndIndent f n)) ;;
  GenerateArray_loop 0 collection ;;
  when (negb (empty collection))
       (n <- decr_indent_level ;; emit (fun f => EmitNewlineAndIndent f n)) ;;
  emit EmitArrayEnd.

Definition GenerateObject (callback : Gen unit) : Gen unit :=
  original_indent_level <- indent_level ;;
  emit EmitObjectBegin ;;
  callback ;;
  n <- indent_level ;;
  when (n >? original_indent_level)
       (n' <- decr_indent_level ;; emit (fun f => EmitNewlineAndIndent f n')) ;;
  emit EmitObjectEnd.

(** A call that names no position takes the default of the declaration,
    [Position::Subsequent]; the embedding always names it. *)
Definition GenerateObjectMember {T} `{Generator T}
    (key : string) (value : T) (position : Position) : Gen unit :=
  match position with
  | First =>
      n <- incr_indent_level ;; emit (fun f => EmitNewlineAndIndent f n)
  | Subsequent =>
      n <- indent_level ;; emit (fun f => EmitObjectSeparator f n)
  end ;;
  n <- indent_level ;;
  emit (fun f => EmitObjectKey f n key) ;;
  Generate value.

(** ** The data model

    The node classes are declared in [types.h], [raw_ast.h] and [flat_ast.h].
    A class with a [kind] tag and one subclass per tag, reached in the
    generator by a [static_cast] under the matching [case], is an inductive
    type with one constructor per subclass; [kind] reads the tag back.  A
    [std::unique_ptr] that is always set is its pointee, one that the
    generator tests before use is an [option]; a [std::vector] is a list;
    [uint32_t] and [uint64_t] values, which the generator only prints, are
    numbers in [N]. *)

Module types.

Inductive Nullability : Type := Nullable | Nonnullable.

Inductive PrimitiveSubtype : Type :=
| Int8 | Int16 | Int32 | Int64
| Uint8 | Uint16 | Uint32 | Uint64
| Bool | Status | Float32 | Float64.

Inductive HandleSubtype : Type :=
| Handle | Process | Thread | Vmo | Channel | Event | Port | Interrupt
| Iomap | Pci | Log | Socket | Resource | Eventpair | Job | Vmar | Fifo
| Hypervisor | Guest | Timer.

End types.

Module raw.

(** A [SourceLocation] is read only through [data()], the text it spans. *)
Record SourceLocation : Type := mkSourceLocation { data : string }.

Record Identifier : Type := mkIdentifier { location : SourceLocation }.

Record CompoundIdentifier : Type :=
  mkCompoundIdentifier { components : list Identifier }.

Module LiteralKind.
Inductive Kind : Type := String | Numeric | True | False | Default.
End LiteralKind.

Inductive Literal : Type :=
| StringLiteral (location : SourceLocation)
| NumericLiteral (location : SourceLocation)
| TrueLiteral
| FalseLiteral
| DefaultLiteral.

Definition Literal_kind (value : Literal) : LiteralKind.Kind :=
  match value with
  | StringLiteral _ => LiteralKind.String
  | NumericLiteral _ => LiteralKind.Numeric
  | TrueLiteral => LiteralKind.True
  | FalseLiteral => LiteralKind.False
  | DefaultLiteral => LiteralKind.Default
  end.

Module ConstantKind.
Inductive Kind : Type := Identifier | Literal.
End ConstantKind.

Inductive Constant : Type :=
| IdentifierConstant (identifier : CompoundIdentifier)
| LiteralConstant (literal : Literal).

Definition Constant_kind (value : Constant) : ConstantKind.Kind :=
  match value with
  | IdentifierConstant _ => ConstantKind.Identifier
  | LiteralConstant _ => ConstantKind.Literal
  end.

Module TypeKind.
Inductive Kind : Type :=
| Array | Vector | String | Handle | Request | Primitive | Identifier.
End TypeKind.

(** Modelled from the spec: the subclasses of [raw::Type] are declared in
    [raw_ast.h]; their fields are the ones the generator reads, with the
    types of section 3 of the specification (a Request names its interface
    by a compound identifier). *)
Inductive Type_ : Type :=
| ArrayType (element_type : Type_) (element_count : Constant)
| VectorType (element_type : Type_) (maybe_element_count : option Constant)
             (nullability : types.Nullability)
| StringType (maybe_element_count : option Constant)
             (nullability : types.Nullability)
| HandleType (subtype : types.HandleSubtype) (nullability : types.Nullability)
| RequestType (subtype : CompoundIdentifier) (nullability : types.Nullability)
| PrimitiveType (subtype : types.PrimitiveSubtype)
| IdentifierType (identifier : CompoundIdentifier)
                 (nullability : types.Nullability).

Definition Type_kind (value : Type_) : TypeKind.Kind :=
  match value with
  | ArrayType _ _ => TypeKind.Array
  | VectorType _ _ _ => TypeKind.Vector
  | StringType _ _ => TypeKind.String
  | HandleType _ _ => TypeKind.Handle
  | RequestType _ _ => TypeKind.Request
  | PrimitiveType _ => TypeKind.Primitive
  | IdentifierType _ _ => TypeKind.Identifier
  end.

End raw.

Module flat.

(** [name.get()] is the identifier the name wraps. *)
Record Name : Type := mkName { get : raw.Identifier }.

Record Ordinal : Type := mkOrdinal { Value : N }.

Module Const.
Record t : Type := mk {
  name : Name;
  type : raw.Type_;
  value : raw.Constant
}.
End Const.

(** Modelled from the spec: the member classes are declared in [flat_ast.h];
    a member, method or parameter name is an identifier, an offset or a size
    a 64-bit count, and the request and response of a method are parameter
    lists (section 3 of the specification). *)
Module Enum.
Module Member.
Record t : Type := mk {
  name : raw.Identifier;
  value : raw.Constant
}.
End Member.
Record t : Type := mk {
  name : Name;
  type : raw.Type_;
  members : list Member.t
}.
End Enum.

Module Interface.
Module Method.
Module Parameter_.
Record t : Type := mk {
  type : raw.Type_;
  name : raw.Identifier;
  offset : N
}.
End Parameter_.
Record t : Type := mk {
  ordinal : Ordinal;
  name : raw.Identifier;
  has_request : bool;
  maybe_request : list Parameter_.t;
  maybe_request_size : N;
  has_response : bool;
  maybe_response : list Parameter_.t;
  maybe_response_size : N
}.
End Method.
Record t : Type := mk {
  name : Name;
  methods : list Method.t
}.
End Interface.

Module Struct.
Module Member.
Record t : Type := mk {
  type : raw.Type_;
  name : raw.Identifier;
  maybe_default_value : option raw.Constant;
  offset : N
}.
End Member.
Record t : Type := mk {
  name : Name;
  members : list Member.t;
  size : N
}.
End Struct.

Module Union.
Module Member.
Record t : Type := mk {
  type : raw.Type_;
  name : raw.Identifier;
  offset : N
}.
End Member.
Record t : Type := mk {
  name : Name;
  members : list Member.t;
  size : N
}.
End Union.

(** Modelled from the spec: [flat::Library] is declared in [flat_ast.h]; its
    name is a Name and its declaration order a sequence of Names (section 3
    of the specification), the five collections are the ones whose elements
    the generator reads. *)
Module Library.
Record t : Type := mk {
  library_name_ : Name;
  const_declarations_ : list Const.t;
  enum_declarations_ : list Enum.t;
  interface_declarations_ : list Interface.t;
  struct_declarations_ : list Struct.t;
  union_declarations_ : list Union.t;
  declaration_order_ : list Name
}.
End Library.

End flat.

(** ** Names of the tags (lines 13-133) *)

Definition LongName (name : flat.Name) : string :=
  raw.data (raw.location (flat.get name)).

Definition PrimitiveSubtypeName (subtype : types.PrimitiveSubtype) : string :=
  match subtype with
  | types.Int8 => "int8"
  | types.Int16 => "int16"
  | types.Int32 => "int32"
  | types.Int64 => "int64"
  | types.Uint8 => "uint8"
  | types.Uint16 => "uint16"
  | types.Uint32 => "uint32"
  | types.Uint64 => "uint64"
  | types.Bool => "bool"
  | types.Status => "status"
  | types.Float32 => "float32"
  | types.Float64 => "float64"
  end.

Definition HandleSubtypeName (subtype : types.HandleSubtype) : string :=
  match subtype with
  | types.Handle => "handle"
  | types.Process => "process"
  | types.Thread => "thread"
  | types.Vmo => "vmo"
  | types.Channel => "channel"
  | types.Event => "event"
  | types.Port => "port"
  | types.Interrupt => "interrupt"
  | types.Iomap => "iomap"
  | types.Pci => "pci"
  | types.Log => "log"
  | types.Socket => "socket"
  | types.Resource => "resource"
  | types.Eventpair => "eventpair"
  | types.Job => "job"
  | types.Vmar => "vmar"
  | types.Fifo => "fifo"
  | types.Hypervisor => "hypervisor"
  | types.Guest => "guest"
  | types.Timer => "timer"
  end.

Definition LiteralKindName (kind : raw.LiteralKind.Kind) : string :=
  match kind with
  | raw.LiteralKind.String => "string"
  | raw.LiteralKind.Numeric => "numeric"
  | raw.LiteralKind.True => "true"
  | raw.LiteralKind.False => "false"
  | raw.LiteralKind.Default => "default"
  end.

Definition TypeKindName (kind : raw.TypeKind.Kind) : string :=
  match kind with
  | raw.TypeKind.Array => "array"
  | raw.TypeKind.Vector => "vector"
  | raw.TypeKind.String => "string"
  | raw.TypeKind.Handle => "handle"
  | raw.TypeKind.Request => "request"
  | raw.TypeKind.Primitive => "primitive"
  | raw.TypeKind.Identifier => "identifier"
  end.

Definition ConstantKindName (kind : raw.ConstantKind.Kind) : string :=
  match kind with
  | raw.ConstantKind.Identifier => "identifier"
  | raw.ConstantKind.Literal => "literal"
  end.

(** ** The node mapper (lines 271-520) *)

(** [Generate(const std::vector<T>&)]; [Generate(const std::unique_ptr<T>&)]
    generates the pointee and needs no instance of its own. *)
#[export] Instance Generate_vector {T} `{Generator T} : Generator (list T) :=
  fun value => GenerateArray value.

#[export] Instance Generate_bool : Generator bool :=
  fun value => emit (fun f => EmitBoolean f value).

(** [Generate(StringView)]; a [std::string] argument converts to the view. *)
#[export] Instance Generate_StringView : Generator string :=
  fun value => emit (fun f => EmitString f value).

(** [Generate(uint64_t)] *)
#[export] Instance Generate_uint64_t : Generator N :=
  fun value => emit (fun f => EmitUint64 f value).

#[export] Instance Generate_HandleSubtype : Generator types.HandleSubtype :=
  fun value => emit (fun f => EmitString f (HandleSubtypeName value)).

#[export] Instance Generate_Nullability : Generator types.Nullability :=
  fun value =>
    match value with
    | types.Nullable => emit (fun f => EmitBoolean f true)
    | types.Nonnullable => emit (fun f => EmitBoolean f false)
    end.

#[export] Instance Generate_PrimitiveSubtype
  : Generator types.PrimitiveSubtype :=
  fun value => emit (fun f => EmitString f (PrimitiveSubtypeName value)).

#[export] Instance Generate_Identifier : Generator raw.Identifier :=
  fun value => emit (fun f => EmitString f (raw.data (raw.location value))).

#[export] Instance Generate_CompoundIdentifier
  : Generator raw.CompoundIdentifier :=
  fun value => Generate (raw.components value).

#[export] Instance Generate_Literal : Generator raw.Literal :=
  fun value =>
    GenerateObject (
      GenerateObjectMember "kind" (LiteralKindName (raw.Literal_kind value))
                           First ;;
      match value with
      | raw.StringLiteral location =>
          n <- indent_level ;;
          emit (fun f => EmitObjectSeparator f n) ;;
          n <- indent_level ;;
          emit (fun f => EmitObjectKey f n "value") ;;
          emit (fun f => EmitLiteral f (raw.data location))
      | raw.NumericLiteral location =>
          GenerateObjectMember "value" (raw.data location) Subsequent
      | raw.TrueLiteral => ret tt
      | raw.FalseLiteral => ret tt
      | raw.DefaultLiteral => ret tt
      end).

#[export] Instance Generate_Constant : Generator raw.Constant :=
  fun value =>
    GenerateObject (
      GenerateObjectMember "kind" (ConstantKindName (raw.Constant_kind value))
                           First ;;
      match value with
      | raw.IdentifierConstant identifier =>
          GenerateObjectMember "identifier" identifier Subsequent
      | raw.LiteralConstant literal =>
          GenerateObjectMember "literal" literal Subsequent
      end).

(** [if (p) GenerateObjectMember(key, p);] on a pointer that may be null. *)
Definition GenerateObjectMember_if_set {T} `{Generator T}
    (key : string) (value : option T) : Gen unit :=
  match value with
  | Some pointee => GenerateObjectMember key pointee Subsequent
  | None => ret tt
  end.

Fixpoint Generate_Type (value : raw.Type_) : Gen unit :=
  GenerateObject (
    GenerateObjectMember "kind" (TypeKindName (raw.Type_kind value)) First ;;
    match value with
    | raw.ArrayType element_type element_count =>
        GenerateObjectMember (H := Generate_Type)
                             "element_type" element_type Subsequent ;;
        GenerateObjectMember "element_count" element_count Subsequent
    | raw.VectorType element_type maybe_element_count nullability =>
        GenerateObjectMember (H := Generate_Type)
                             "element_type" element_type Subsequent ;;
        GenerateObjectMember_if_set "maybe_element_count"
                                    maybe_element_count ;;
        GenerateObjectMember "nullable" nullability Subsequent
    | raw.StringType maybe_element_count nullability =>
        GenerateObjectMember_if_set "maybe_element_count"
                                    maybe_element_count ;;
        GenerateObjectMember "nullable" nullability Subsequent
    | raw.HandleType subtype nullability =>
        GenerateObjectMember "subtype" subtype Subsequent ;;
        GenerateObjectMember "nullable" nullability Subsequent
    | raw.RequestType subtype nullability =>
        GenerateObjectMember "subtype" subtype Subsequent ;;
        GenerateObjectMember "nullable" nullability Subsequent
    | raw.PrimitiveType subtype =>
        GenerateObjectMember "subtype" subtype Subsequent
    | raw.IdentifierType identifier nullability =>
        GenerateObjectMember "identifier" identifier Subsequent ;;
        GenerateObjectMember "nullable" nullability Subsequent
    end).

#[export] Instance Generate_Type_ : Generator raw.Type_ := Generate_Type.

#[export] Instance Generate_Ordinal : Generator flat.Ordinal :=
  fun value => emit (fun f => EmitUint32 f (flat.Value value)).

#[export] Instance Generate_Name : Generator flat.Name :=
  fun value => emit (fun f => EmitString f (LongName value)).

#[export] Instance Generate_Const : Generator flat.Const.t :=
  fun value =>
    GenerateObject (
      GenerateObjectMember "name" (flat.Const.name value) First ;;
      GenerateObjectMember "type" (flat.Const.type value) Subsequent ;;
      GenerateObjectMember "value" (flat.Const.value value) Subsequent).

#[export] Instance Generate_Enum_Member : Generator flat.Enum.Member.t :=
  fun value =>
    GenerateObject (
      GenerateObjectMember "name" (flat.Enum.Member.name value) First ;;
      GenerateObjectMember "value" (flat.Enum.Member.value value) Subsequent).

#[export] Instance Generate_Enum : Generator flat.Enum.t :=
  fun value =>
    GenerateObject (
      GenerateObjectMember "name" (flat.Enum.name value) First ;;
      match flat.Enum.type value with
      | raw.PrimitiveType subtype =>
          GenerateObjectMember "type" subtype Subsequent
      | _ => ret tt
      end ;;
      GenerateObjectMember "members" (flat.Enum.members value) Subsequent).

#[export] Instance Generate_Parameter
  : Generator flat.Interface.Method.Parameter_.t :=
  fun value =>
    GenerateObject (
      GenerateObjectMember "type" (flat.Interface.Method.Parameter_.type value)
                           First ;;
      GenerateObjectMember "name" (flat.Interface.Method.Parameter_.name value)
                           Subsequent ;;
      GenerateObjectMember "offset"
                           (flat.Interface.Method.Parameter_.offset value)
                           Subsequent).

#[export] Instance Generate_Method : Generator flat.Interface.Method.t :=
  fun value =>
    GenerateObject (
      GenerateObjectMember "ordinal" (flat.Interface.Method.ordinal value)
                           First ;;
      GenerateObjectMember "name" (flat.Interface.Method.name value)
                           Subsequent ;;
      GenerateObjectMember "has_request"
                           (flat.Interface.Method.has_request value)
                           Subsequent ;;
      when (flat.Interface.Method.has_request value) (
        GenerateObjectMember "maybe_request"
                             (flat.Interface.Method.maybe_request value)
                             Subsequent ;;
        GenerateObjectMember "maybe_request_size"
                             (flat.Interface.Method.maybe_request_size value)
                             Subsequent) ;;
      GenerateObjectMember "has_response"
                           (flat.Interface.Method.has_response value)
                           Subsequent ;;
      when (flat.Interface.Method.has_response value) (
        GenerateObjectMember "maybe_response"
                             (flat.Interface.Method.maybe_response value)
                             Subsequent ;;
        GenerateObjectMember "maybe_response_size"
                             (flat.Interface.Method.maybe_response_size value)
                             Subsequent)).

#[export] Instance Generate_Interface : Generator flat.Interface.t :=
  fun value =>
    GenerateObject (
      GenerateObjectMember "name" (flat.Interface.name value) First ;;
      GenerateObjectMember "methods" (flat.Interface.methods value)
                           Subsequent).

#[export] Instance Generate_Struct_Member : Generator flat.Struct.Member.t :=
  fun value =>
    GenerateObject (
      GenerateObjectMember "type" (flat.Struct.Member.type value) First ;;
      GenerateObjectMember "name" (flat.Struct.Member.name value)
                           Subsequent ;;
      GenerateObjectMember_if_set
        "maybe_default_value" (flat.Struct.Member.maybe_default_value value) ;;
      GenerateObjectMember "offset" (flat.Struct.Member.offset value)
                           Subsequent).

#[export] Instance Generate_Struct : Generator flat.Struct.t :=
  fun value =>
    GenerateObject (
      GenerateObjectMember "name" (flat.Struct.name value) First ;;
      GenerateObjectMember "members" (flat.Struct.members value) Subsequent ;;
      GenerateObjectMember "size" (flat.Struct.size value) Subsequent).

#[export] Instance Generate_Union_Member : Generator flat.Union.Member.t :=
  fun value =>
    GenerateObject (
      GenerateObjectMember "type" (flat.Union.Member.type value) First ;;
      GenerateObjectMember "name" (flat.Union.Member.name value)
                           Subsequent ;;
      GenerateObjectMember "offset" (flat.Union.Member.offset value)
                           Subsequent).

#[export] Instance Generate_Union : Generator flat.Union.t :=
  fun value =>
    GenerateObject (
      GenerateObjectMember "name" (flat.Union.name value) First ;;
      GenerateObjectMember "members" (flat.Union.members value) Subsequent ;;
      GenerateObjectMember "size" (flat.Union.size value) Subsequent).

(** ** The library serializer (lines 522-567) *)

Definition GenerateDeclarationMapEntry
    (count : Z) (name : flat.Name) (decl : string) : Gen unit :=
  (if count =? 0
   then n <- incr_indent_level ;; emit (fun f => EmitNewlineAndIndent f n)
   else n <- indent_level ;; emit (fun f => EmitObjectSeparator f n)) ;;
  n <- indent_level ;;
  emit (fun f => EmitObjectKey f n (LongName name)) ;;
  emit (fun f => EmitString f decl).

(** [for (auto& decl : decls) GenerateDeclarationMapEntry(count++, decl.name,
    kind);] : the loop returns the counter it leaves behind. *)
Fixpoint GenerateDeclarationMapEntries {D}
    (name : D -> flat.Name) (kind : string) (count : Z) (decls : list D)
  : Gen Z :=
  match decls with
  | [] => ret count
  | decl :: rest =>
      GenerateDeclarationMapEntry count (name decl) kind ;;
      GenerateDeclarationMapEntries name kind (count + 1) rest
  end.

(** The callback of the inner [GenerateObject] (lines 546-562). *)
Definition GenerateDeclarationMap (library_ : flat.Library.t) : Gen unit :=
  let count := 0 in
  count <- GenerateDeclarationMapEntries flat.Const.name "const" count
             (flat.Library.const_declarations_ library_) ;;
  count <- GenerateDeclarationMapEntries flat.Enum.name "enum" count
             (flat.Library.enum_declarations_ library_) ;;
  count <- GenerateDeclarationMapEntries flat.Interface.name "interface" count
             (flat.Library.interface_declarations_ library_) ;;
  count <- GenerateDeclarationMapEntries flat.Struct.name "struct" count
             (flat.Library.struct_declarations_ library_) ;;
  count <- GenerateDeclarationMapEntries flat.Union.name "union" count
             (flat.Library.union_declarations_ library_) ;;
  ret tt.

(** [*json_file_out = std::move(json_file_)] hands the text over; the stream
    of the generator is left empty. *)
Definition move_json_file_ : Gen string :=
  fun g => (json_file_ g, mkGen "" (indent_level_ g)).

Definition ProduceJSON (library_ : flat.Library.t) : Gen string :=
  (fun g => (tt, mkGen (json_file_ g) 0)) ;;
  GenerateObject (
    GenerateObjectMember "name" (flat.Library.library_name_ library_) First ;;
    GenerateObjectMember "library_dependencies" (@nil bool) Subsequent ;;
    GenerateObjectMember "const_declarations"
      (flat.Library.const_declarations_ library_) Subsequent ;;
    GenerateObjectMember "enum_declarations"
      (flat.Library.enum_declarations_ library_) Subsequent ;;
    GenerateObjectMember "interface_declarations"
      (flat.Library.interface_declarations_ library_) Subsequent ;;
    GenerateObjectMember "struct_declarations"
      (flat.Library.struct_declarations_ library_) Subsequent ;;
    GenerateObjectMember "union_declarations"
      (flat.Library.union_declarations_ library_) Subsequent ;;
    GenerateObjectMember "declaration_order"
      (flat.Library.declaration_order_ library_) Subsequent ;;
    n <- indent_level ;;
    emit (fun f => EmitObjectSeparator f n) ;;
    n <- indent_level ;;
    emit (fun f => EmitObjectKey f n "declarations") ;;
    GenerateObject (GenerateDeclarationMap library_)) ;;
  GenerateEOF ;;
  move_json_file_.

(** A generator as its constructor leaves it: nothing written yet. *)
Definition fresh_generator : JSONGenerator := mkGen "" 0.

(** The document a fresh generator produces for a library. *)
Definition document (library_ : flat.Library.t) : string :=
  fst (ProduceJSON library_ fresh_generator).

(** ** The JSON document model

    The text the generator writes, described as a value: objects are ordered
    lists of members, arrays ordered lists of elements.  [print_json] lays a
    value out by the array and object rules of the structural builder: an
    empty array is [[]] and an empty object [{}]; otherwise the elements are
    one level deeper, each on a line of its own, separated by commas, and the
    closing bracket is on a line of its own at the outer level. *)

#[local] Unset Elimination Schemes.
Inductive json : Type :=
| JBool (b : bool)
| JString (s : string)
| JVerbatim (text : string)
| JNumber (n : N)
| JArray (elements : list json)
| JObject (members : list (string * json)).
#[local] Set Elimination Schemes.

(** The escaping of a string: a quote and a backslash get a backslash in
    front, every other character stands for itself. *)
Fixpoint escape (s : string) : string :=
  match s with
  | EmptyString => EmptyString
  | String c rest =>
      if Ascii.eqb c dquote then String backslash (String dquote (escape rest))
      else if Ascii.eqb c backslash
           then String backslash (String backslash (escape rest))
           else String c (escape rest)
  end.

Definition quoted (s : string) : string :=
  str dquote ++ escape s ++ str dquote.

Fixpoint indent (count : nat) : string :=
  match count with
  | O => EmptyString
  | S count' => kIndent ++ indent count'
  end.

Definition newline_indent (level : Z) : string :=
  str linefeed ++ indent (Z.to_nat level).

Fixpoint print_json (level : Z) (v : json) {struct v} : string :=
  match v with
  | JBool b => if b then "true" else "false"
  | JString s => quoted s
  | JVerbatim text => text
  | JNumber n => decimal n
  | JArray [] => "[]"
  | JArray (x :: xs) =>
      "[" ++ newline_indent (level + 1) ++ print_json (level + 1) x
      ++ (fix more (l : list json) : string :=
            match l with
            | [] => EmptyString
            | y :: l' =>
                "," ++ newline_indent (level + 1) ++ print_json (level + 1) y
                ++ more l'
            end) xs
      ++ newline_indent level ++ "]"
  | JObject [] => "{}"
  | JObject ((k, x) :: ms) =>
      "{" ++ newline_indent (level + 1)
      ++ quoted k ++ ": " ++ print_json (level + 1) x
      ++ (fix more (l : list (string * json)) : string :=
            match l with
            | [] => EmptyString
            | (k', y) :: l' =>
                "," ++ newline_indent (level + 1)
                ++ quoted k' ++ ": " ++ print_json (level + 1) y
                ++ more l'
            end) ms
      ++ newline_indent level ++ "}"
  end.

(** The elements after the first, and the members after the first. *)
Fixpoint print_more_elements (level : Z) (l : list json) : string :=
  match l with
  | [] => EmptyString
  | y :: l' =>
      "," ++ newline_indent level ++ print_json level y
      ++ print_more_elements level l'
  end.

Definition print_member (level : Z) (m : string * json) : string :=
  quoted (fst m) ++ ": " ++ print_json level (snd m).

Fixpoint print_more_members (level : Z) (l : list (string * json)) : string :=
  match l with
  | [] => EmptyString
  | m :: l' =>
      "," ++ newline_indent level ++ print_member level m
      ++ print_more_members level l'
  end.

(** What the callback of a non-empty object has written when it returns, and
    the level it has left the counter at. *)
Definition print_object_body (level : Z) (ms : list (string * json))
  : string :=
  match ms with
  | [] => EmptyString
  | m :: ms' =>
      newline_indent (level + 1) ++ print_member (level + 1) m
      ++ print_more_members (level + 1) ms'
  end.

Definition level_inside (level : Z) (ms : list (string * json)) : Z :=
  match ms with
  | [] => level
  | _ :: _ => level + 1
  end.

(** The members of an object. *)
Definition members_of (v : json) : list (string * json) :=
  match v with
  | JObject ms => ms
  | _ => []
  end.

(** The value of the first member with the given key. *)
Fixpoint member (key : string) (ms : list (string * json)) : option json :=
  match ms with
  | [] => None
  | (k, v) :: ms' => if String.eqb k key then Some v else member key ms'
  end.

(** A member that is present only when its value is. *)
Definition optional_member {T} (key : string) (f : T -> json)
    (value : option T) : list (string * json) :=
  match value with
  | Some pointee => [(key, f pointee)]
  | None => []
  end.

(** ** What a generator step writes *)

(** [writes c text]: run at any level [n] on any stream, [c] appends
    [text n] and leaves the counter at [n]. *)
Definition writes (c : Gen unit) (text : Z -> string) : Prop :=
  forall file n, c (mkGen file n) = (tt, mkGen (file ++ text n) n).

Definition prints (c : Gen unit) (v : json) : Prop :=
  writes c (fun n => print_json n v).

Definition prints_members (c : Gen unit) (ms : list (string * json)) : Prop :=
  writes c (fun n => print_more_members n ms).

(** ** The document model of every node

    One function per overload of [Generate]: the JSON value the overload
    writes.  The lemmas named [..._prints] below prove, overload by overload,
    that the generator prints exactly this value and restores the counter. *)

Definition json_of_Nullability (value : types.Nullability) : json :=
  match value with
  | types.Nullable => JBool true
  | types.Nonnullable => JBool false
  end.

Definition json_of_Identifier (value : raw.Identifier) : json :=
  JString (raw.data (raw.location value)).

Definition json_of_CompoundIdentifier (value : raw.CompoundIdentifier) : json :=
  JArray (map json_of_Identifier (raw.components value)).

Definition json_of_Literal (value : raw.Literal) : json :=
  JObject (
    ("kind", JString (LiteralKindName (raw.Literal_kind value))) ::
    match value with
    | raw.StringLiteral location => [("value", JVerbatim (raw.data location))]
    | raw.NumericLiteral location => [("value", JString (raw.data location))]
    | _ => []
    end).

Definition json_of_Constant (value : raw.Constant) : json :=
  JObject (
    ("kind", JString (ConstantKindName (raw.Constant_kind value))) ::
    match value with
    | raw.IdentifierConstant identifier =>
        [("identifier", json_of_CompoundIdentifier identifier)]
    | raw.LiteralConstant literal => [("literal", json_of_Literal literal)]
    end).

Definition nullable_member (nullability : types.Nullability)
  : list (string * json) :=
  [("nullable", json_of_Nullability nullability)].

Fixpoint json_of_Type (value : raw.Type_) : json :=
  JObject (
    ("kind", JString (TypeKindName (raw.Type_kind value))) ::
    match value with
    | raw.ArrayType element_type element_count =>
        [("element_type", json_of_Type element_type);
         ("element_count", json_of_Constant element_count)]
    | raw.VectorType element_type maybe_element_count nullability =>
        ("element_type", json_of_Type element_type) ::
        (optional_member "maybe_element_count" json_of_Constant
                         maybe_element_count
         ++ nullable_member nullability)%list
    | raw.StringType maybe_element_count nullability =>
        (optional_member "maybe_element_count" json_of_Constant
                         maybe_element_count
         ++ nullable_member nullability)%list
    | raw.HandleType subtype nullability =>
        ("subtype", JString (HandleSubtypeName subtype)) ::
        nullable_member nullability
    | raw.RequestType subtype nullability =>
        ("subtype", json_of_CompoundIdentifier subtype) ::
        nullable_member nullability
    | raw.PrimitiveType subtype =>
        [("subtype", JString (PrimitiveSubtypeName subtype))]
    | raw.IdentifierType identifier nullability =>
        ("identifier", json_of_CompoundIdentifier identifier) ::
        nullable_member nullability
    end).

Definition json_of_Name (value : flat.Name) : json :=
  JString (LongName value).

Definition json_of_Const (value : flat.Const.t) : json :=
  JObject [("name", json_of_Name (flat.Const.name value));
           ("type", json_of_Type (flat.Const.type value));
           ("value", json_of_Constant (flat.Const.value value))].

Definition json_of_Enum_Member (value : flat.Enum.Member.t) : json :=
  JObject [("name", json_of_Identifier (flat.Enum.Member.name value));
           ("value", json_of_Constant (flat.Enum.Member.value value))].

Definition json_of_Enum (value : flat.Enum.t) : json :=
  JObject (
    ("name", json_of_Name (flat.Enum.name value)) ::
    (match flat.Enum.type value with
     | raw.PrimitiveType subtype =>
         [("type", JString (PrimitiveSubtypeName subtype))]
     | _ => []
     end
     ++ [("members",
          JArray (map json_of_Enum_Member (flat.Enum.members value)))])%list).

Definition json_of_Parameter (value : flat.Interface.Method.Parameter_.t)
  : json :=
  JObject [
    ("type", json_of_Type (flat.Interface.Method.Parameter_.type value));
    ("name", json_of_Identifier (flat.Interface.Method.Parameter_.name value));
    ("offset", JNumber (flat.Interface.Method.Parameter_.offset value))].

Definition json_of_Method (value : flat.Interface.Method.t) : json :=
  JObject (
    ("ordinal", JNumber (flat.Value (flat.Interface.Method.ordinal value))) ::
    ("name", json_of_Identifier (flat.Interface.Method.name value)) ::
    ("has_request", JBool (flat.Interface.Method.has_request value)) ::
    ((if flat.Interface.Method.has_request value
      then [("maybe_request",
             JArray (map json_of_Parameter
                         (flat.Interface.Method.maybe_request value)));
            ("maybe_request_size",
             JNumber (flat.Interface.Method.maybe_request_size value))]
      else [])
     ++ ("has_response", JBool (flat.Interface.Method.has_response value)) ::
        (if flat.Interface.Method.has_response value
         then [("maybe_response",
                JArray (map json_of_Parameter
                            (flat.Interface.Method.maybe_response value)));
               ("maybe_response_size",
                JNumber (flat.Interface.Method.maybe_response_size value))]
         else []))%list).

Definition json_of_Interface (value : flat.Interface.t) : json :=
  JObject [("name", json_of_Name (flat.Interface.name value));
           ("methods",
            JArray (map json_of_Method (flat.Interface.methods value)))].

Definition json_of_Struct_Member (value : flat.Struct.Member.t) : json :=
  JObject (
    ("type", json_of_Type (flat.Struct.Member.type value)) ::
    ("name", json_of_Identifier (flat.Struct.Member.name value)) ::
    (optional_member "maybe_default_value" json_of_Constant
                     (flat.Struct.Member.maybe_default_value value)
     ++ [("offset", JNumber (flat.Struct.Member.offset value))])%list).

Definition json_of_Struct (value : flat.Struct.t) : json :=
  JObject [("name", json_of_Name (flat.Struct.name value));
           ("members",
            JArray (map json_of_Struct_Member (flat.Struct.members value)));
           ("size", JNumber (flat.Struct.size value))].

Definition json_of_Union_Member (value : flat.Union.Member.t) : json :=
  JObject [("type", json_of_Type (flat.Union.Member.type value));
           ("name", json_of_Identifier (flat.Union.Member.name value));
           ("offset", JNumber (flat.Union.Member.offset value))].

Definition json_of_Union (value : flat.Union.t) : json :=
  JObject [("name", json_of_Name (flat.Union.name value));
           ("members",
            JArray (map json_of_Union_Member (flat.Union.members value)));
           ("size", JNumber (flat.Union.size value))].

(** The entries of the declaration map: every declaration's name with the
    name of its kind, the five collections one after the other. *)
Definition declaration_entries {D} (name : D -> flat.Name) (kind : string)
    (decls : list D) : list (string * json) :=
  map (fun decl => (LongName (name decl), JString kind)) decls.

Definition declaration_map (library_ : flat.Library.t)
  : list (string * json) :=
  (declaration_entries flat.Const.name "const"
     (flat.Library.const_declarations_ library_)
   ++ declaration_entries flat.Enum.name "enum"
        (flat.Library.enum_declarations_ library_)
   ++ declaration_entries flat.Interface.name "interface"
        (flat.Library.interface_declarations_ library_)
   ++ declaration_entries flat.Struct.name "struct"
        (flat.Library.struct_declarations_ library_)
   ++ declaration_entries flat.Union.name "union"
        (flat.Library.union_declarations_ library_))%list.

Definition json_of_Library (library_ : flat.Library.t) : json :=
  JObject [
    ("name", json_of_Name (flat.Library.library_name_ library_));
    ("library_dependencies", JArray []);
    ("const_declarations",
     JArray (map json_of_Const (flat.Library.const_declarations_ library_)));
    ("enum_declarations",
     JArray (map json_of_Enum (flat.Library.enum_declarations_ library_)));
    ("interface_declarations",
     JArray (map json_of_Interface
                 (flat.Library.interface_declarations_ library_)));
    ("struct_declarations",
     JArray (map json_of_Struct (flat.Library.struct_declarations_ library_)));
    ("union_declarations",
     JArray (map json_of_Union (flat.Library.union_declarations_ library_)));
    ("declaration_order",
     JArray (map json_of_Name (flat.Library.declaration_order_ library_)));
    ("declarations", JObject (declaration_map library_))].

(** ** A type node whose tag is outside the closed set

    [raw::Type::Kind] is a scoped enumeration: an object of [raw::Type] can
    hold in [kind] an integer that is the value of none of the seven
    enumerators; a tree that has one is a malformed tree.  [Type_object] is
    what is behind a [raw::Type] pointer in a tree that may be malformed in
    this way: a well-formed type, whose [kind] is the enumerator of its
    subclass, or a [raw::Type] whose [kind] is no enumerator. *)






(** The enumerators as the source spells them. *)
Definition LiteralKind_enumerator (kind : raw.LiteralKind.Kind) : string :=
  match kind with
  | raw.LiteralKind.String => "String"
  | raw.LiteralKind.Numeric => "Numeric"
  | raw.LiteralKind.True => "True"
  | raw.LiteralKind.False => "False"
  | raw.LiteralKind.Default => "Default"
  end.

Definition TypeKind_enumerator (kind : raw.TypeKind.Kind) : string :=
  match kind with
  | raw.TypeKind.Array => "Array"
  | raw.TypeKind.Vector => "Vector"
  | raw.TypeKind.String => "String"
  | raw.TypeKind.Handle => "Handle"
  | raw.TypeKind.Request => "Request"
  | raw.TypeKind.Primitive => "Primitive"
  | raw.TypeKind.Identifier => "Identifier"
  end.

Definition ConstantKind_enumerator (kind : raw.ConstantKind.Kind) : string :=
  match kind with
  | raw.ConstantKind.Identifier => "Identifier"
  | raw.ConstantKind.Literal => "Literal"
  end.

Definition lowercase_char (c : ascii) : ascii :=
  let code := nat_of_ascii c in
  if (Nat.leb 65 code && Nat.leb code 90)%bool
  then ascii_of_nat (code + 32)
  else c.

Fixpoint lowercase (s : string) : string :=
  match s with
  | EmptyString => EmptyString
  | String c rest => String (lowercase_char c) (lowercase rest)
  end.

(** [restores_indent c]: whatever the state, [c] leaves the counter at the
    value it found. *)
Definition restores_indent (c : Gen unit) : Prop :=
  forall g, indent_level_ (snd (c g)) = indent_level_ g.

(** [restoring T]: the overload of [Generate] for [T] restores the counter
    on every value. *)
Definition restoring (T : Type) `{Generator T} : Prop :=
  forall value : T, restores_indent (Generate value).

(** The source text of a String literal, six bytes: quote, a, backslash,
    quote, b, quote. *)
Definition a_quote_b : string :=
  String dquote (String "a" (String backslash (String dquote
    (String "b" (str dquote))))).

(** ** Sample values *)

(** Lines of text, joined by line feeds. *)
Definition lines (ls : list string) : string :=
  String.concat (str linefeed) ls.

(** [q s] is [s] between two quotes. *)
Definition q (s : string) : string := str dquote ++ s ++ str dquote.

Definition identifier (text : string) : raw.Identifier :=
  raw.mkIdentifier (raw.mkSourceLocation text).

Definition uint32 : raw.Type_ := raw.PrimitiveType types.Uint32.

(** The struct [S { uint32 x; }] : one member at offset 0, size 4. *)
Definition struct_S : flat.Struct.t :=
  flat.Struct.mk (flat.mkName (identifier "S"))
                 [flat.Struct.Member.mk uint32 (identifier "x") None 0%N]
                 4%N.

(** The library [example] with the struct [S] and nothing else. *)
Definition library_example : flat.Library.t :=
  flat.Library.mk (flat.mkName (identifier "example"))
                  [] [] [] [struct_S] []
                  [flat.mkName (identifier "S")].

(** ** Reading escaped text back *)

(** The inverse of the escaping: a backslash stands for the character that
    follows it. *)
Fixpoint unescape (s : string) : string :=
  match s with
  | EmptyString => EmptyString
  | String c rest =>
      if Ascii.eqb c backslash
      then match rest with
           | EmptyString => EmptyString
           | String c' rest' => String c' (unescape rest')
           end
      else String c (unescape rest)
  end.

(** The two characters [EmitString] treats apart. *)
Definition special (c : ascii) : bool :=
  (Ascii.eqb c dquote || Ascii.eqb c backslash)%bool.

Fixpoint count_special (s : string) : nat :=
  match s with
  | EmptyString => O
  | String c rest =>
      ((if special c then 1 else 0) + count_special rest)%nat
  end.

(** Text without a quote and without a backslash. *)
Fixpoint plain (s : string) : bool :=
  match s with
  | EmptyString => true
  | String c rest => (negb (special c) && plain rest)%bool
  end.

(** A name with a tab and a line feed in it. *)
Definition tab_and_linefeed : string :=
  String "a" (String "009"%char (String "b" (String linefeed "c"))).

(** * Lemmas *)

(** ** Text *)

Lemma append_assoc (a b c : string) : (a ++ b) ++ c = a ++ (b ++ c).
Proof. induction a as [|x a IH]; simpl; [reflexivity | now rewrite IH]. Qed.

Lemma append_nil_r (a : string) : a ++ "" = a.
Proof. induction a as [|x a IH]; simpl; [reflexivity | now rewrite IH]. Qed.

(** ** Lemmas on the printer and on the Emit functions *)

Lemma print_json_array level x xs :
  print_json level (JArray (x :: xs)) =
  "[" ++ newline_indent (level + 1) ++ print_json (level + 1) x
  ++ print_more_elements (level + 1) xs ++ newline_indent level ++ "]".
Proof.
  cbn [print_json]. do 3 apply f_equal.
  apply (f_equal (fun s => s ++ _)).
  induction xs as [|y xs IH]; cbn [print_more_elements]; [reflexivity|].
  now rewrite IH.
Qed.

Lemma print_json_object level m ms :
  print_json level (JObject (m :: ms)) =
  "{" ++ newline_indent (level + 1) ++ print_member (level + 1) m
  ++ print_more_members (level + 1) ms ++ newline_indent level ++ "}".
Proof.
  destruct m as [k x]. unfold print_member at 1. cbn [print_json fst snd].
  rewrite !append_assoc. do 5 apply f_equal.
  apply (f_equal (fun s => s ++ _)).
  induction ms as [|[k' y] ms IH]; cbn [print_more_members]; [reflexivity|].
  unfold print_member. cbn [fst snd]. rewrite !append_assoc.
  now rewrite IH.
Qed.

Lemma print_more_members_app level ms1 ms2 :
  print_more_members level (ms1 ++ ms2)%list =
  print_more_members level ms1 ++ print_more_members level ms2.
Proof.
  induction ms1 as [|m ms1 IH]; cbn [print_more_members app];
    [reflexivity|].
  now rewrite IH, !append_assoc.
Qed.

Lemma EmitString_loop_escape value : forall file,
  EmitString_loop file value = file ++ escape value.
Proof.
  induction value as [|c rest IH]; intros file; cbn [EmitString_loop escape].
  - now rewrite append_nil_r.
  - rewrite IH. unfold EmitString_char.
    destruct (Ascii.eqb c dquote); [|destruct (Ascii.eqb c backslash)];
      now rewrite append_assoc.
Qed.

Lemma EmitString_quoted file value :
  EmitString file value = file ++ quoted value.
Proof.
  unfold EmitString, quoted.
  now rewrite EmitString_loop_escape, !append_assoc.
Qed.

Lemma EmitIndent_loop_indent count : forall file,
  EmitIndent_loop file count = file ++ indent count.
Proof.
  induction count as [|count IH]; intros file; cbn [EmitIndent_loop indent].
  - now rewrite append_nil_r.
  - now rewrite IH, append_assoc.
Qed.

Lemma EmitNewlineAndIndent_text file level :
  EmitNewlineAndIndent file level = file ++ newline_indent level.
Proof.
  unfold EmitNewlineAndIndent, newline_indent.
  now rewrite EmitIndent_loop_indent, append_assoc.
Qed.

Lemma EmitObjectKey_text file level key :
  EmitObjectKey file level key = file ++ quoted key ++ ": ".
Proof.
  unfold EmitObjectKey. now rewrite EmitString_quoted, append_assoc.
Qed.

Lemma EmitObjectSeparator_text file level :
  EmitObjectSeparator file level = file ++ "," ++ newline_indent level.
Proof.
  unfold EmitObjectSeparator.
  now rewrite EmitNewlineAndIndent_text, append_assoc.
Qed.

Lemma EmitArraySeparator_text file level :
  EmitArraySeparator file level = file ++ "," ++ newline_indent level.
Proof.
  unfold EmitArraySeparator.
  now rewrite EmitNewlineAndIndent_text, append_assoc.
Qed.

(** ** Lemmas on the structural builder *)

Ltac emit_text :=
  rewrite ?EmitObjectKey_text, ?EmitObjectSeparator_text,
    ?EmitArraySeparator_text, ?EmitNewlineAndIndent_text, ?EmitString_quoted.

Ltac run_gen :=
  repeat progress
    (unfold bind, ret, emit, when, indent_level, incr_indent_level,
       decr_indent_level;
     cbn [json_file_ indent_level_ fst snd Nat.eqb negb empty]).

Lemma writes_ret : writes (ret tt) (fun _ => EmptyString).
Proof. intros file n. unfold ret. now rewrite append_nil_r. Qed.

Lemma writes_bind c1 c2 text1 text2 :
  writes c1 text1 -> writes c2 text2 ->
  writes (c1 ;; c2) (fun n => text1 n ++ text2 n).
Proof.
  intros H1 H2 file n. unfold bind.
  now rewrite H1, H2, append_assoc.
Qed.

Lemma writes_ext c text1 text2 :
  (forall n, text1 n = text2 n) -> writes c text1 -> writes c text2.
Proof. intros E H file n. now rewrite H, E. Qed.

(** A first member enters the object: it is written one level deeper and
    leaves the counter there. *)
Lemma GenerateObjectMember_First {T} `{Generator T} key (value : T) v :
  prints (Generate value) v ->
  forall file n,
    GenerateObjectMember key value First (mkGen file n) =
    (tt, mkGen (file ++ newline_indent (n + 1) ++ print_member (n + 1) (key, v))
               (n + 1)).
Proof.
  intros Hv file n. unfold GenerateObjectMember. run_gen.
  rewrite Hv. emit_text. unfold print_member. cbn [fst snd].
  now rewrite !append_assoc.
Qed.

Lemma GenerateObjectMember_Subsequent {T} `{Generator T} key (value : T) v :
  prints (Generate value) v ->
  prints_members (GenerateObjectMember key value Subsequent) [(key, v)].
Proof.
  intros Hv file n. unfold GenerateObjectMember. run_gen.
  rewrite Hv. emit_text. cbn [print_more_members].
  unfold print_member. cbn [fst snd].
  now rewrite !append_assoc, append_nil_r.
Qed.

Lemma prints_members_nil : prints_members (ret tt) [].
Proof. exact writes_ret. Qed.

Lemma prints_members_app c1 c2 ms1 ms2 :
  prints_members c1 ms1 -> prints_members c2 ms2 ->
  prints_members (c1 ;; c2) (ms1 ++ ms2)%list.
Proof.
  intros H1 H2. eapply writes_ext; [|exact (writes_bind _ _ _ _ H1 H2)].
  intros n. cbn beta. now rewrite print_more_members_app.
Qed.

Lemma prints_members_cons {T} `{Generator T} key (value : T) v rest ms :
  prints (Generate value) v -> prints_members rest ms ->
  prints_members (GenerateObjectMember key value Subsequent ;; rest)
                 ((key, v) :: ms).
Proof.
  intros Hv Hr.
  exact (prints_members_app _ _ [(key, v)] ms
           (GenerateObjectMember_Subsequent key value v Hv) Hr).
Qed.

Lemma prints_members_if_set {T} `{Generator T} key (value : option T) f :
  (forall pointee, prints (Generate pointee) (f pointee)) ->
  prints_members (GenerateObjectMember_if_set key value)
                 (optional_member key f value).
Proof.
  intros Hf. destruct value as [pointee|];
    cbn [GenerateObjectMember_if_set optional_member].
  - now apply GenerateObjectMember_Subsequent.
  - exact prints_members_nil.
Qed.

Lemma prints_members_when (b : bool) c ms :
  (b = true -> prints_members c ms) ->
  prints_members (when b c) (if b then ms else []).
Proof.
  destruct b; intros Hc; cbn [when]; [now apply Hc | exact prints_members_nil].
Qed.

(** The object rule: the callback writes a first member and then further
    members; the object closes one level up, where it was opened. *)
Lemma GenerateObject_members {T} `{Generator T} key (value : T) v rest ms :
  prints (Generate value) v -> prints_members rest ms ->
  prints (GenerateObject (GenerateObjectMember key value First ;; rest))
         (JObject ((key, v) :: ms)).
Proof.
  intros Hv Hr file n. unfold GenerateObject.
  unfold bind at 1 2 3. unfold indent_level at 1, emit at 1.
  cbn [json_file_ indent_level_].
  unfold bind at 1.
  rewrite (GenerateObjectMember_First key value v Hv), Hr.
  run_gen.
  replace (n + 1 >? n) with true by (symmetry; apply Z.gtb_lt; lia).
  cbn [json_file_ indent_level_].
  replace (n + 1 - 1) with n by lia.
  emit_text. unfold EmitObjectBegin, EmitObjectEnd.
  rewrite print_json_object. now rewrite !append_assoc.
Qed.

(** The array rule. *)
Lemma GenerateArray_loop_elements {T} `{Generator T} (f : T -> json) :
  forall (rest : list T) (i : nat),
    (forall x, In x rest -> prints (Generate x) (f x)) ->
    writes (GenerateArray_loop (S i) rest)
           (fun n => print_more_elements n (map f rest)).
Proof.
  induction rest as [|x rest IH]; intros i Hall file n;
    cbn [GenerateArray_loop map print_more_elements].
  - unfold ret. now rewrite append_nil_r.
  - run_gen. cbn [Nat.eqb negb].
    rewrite (Hall x (or_introl eq_refl)).
    rewrite IH by (intros y Hy; apply Hall; now right).
    emit_text. now rewrite !append_assoc.
Qed.

Lemma GenerateArray_prints {T} `{Generator T} (f : T -> json)
    (collection : list T) :
  (forall x, In x collection -> prints (Generate x) (f x)) ->
  prints (GenerateArray collection) (JArray (map f collection)).
Proof.
  intros Hall file n. destruct collection as [|x rest].
  - unfold GenerateArray. run_gen. cbn.
    unfold EmitArrayBegin, EmitArrayEnd. now rewrite append_assoc.
  - unfold GenerateArray. cbn [empty negb map]. run_gen.
    cbn [GenerateArray_loop Nat.eqb negb]. run_gen.
    rewrite (Hall x (or_introl eq_refl)).
    rewrite (GenerateArray_loop_elements f rest 0)
      by (intros y Hy; apply Hall; now right).
    cbn [json_file_ indent_level_].
    replace (n + 1 - 1) with n by lia.
    emit_text. unfold EmitArrayBegin, EmitArrayEnd.
    rewrite print_json_array. now rewrite !append_assoc.
Qed.

(** ** Every overload prints its document model *)

Create HintDb prints discriminated.

Lemma Generate_bool_prints (value : bool) :
  prints (Generate value) (JBool value).
Proof. intros file n. destruct value; reflexivity. Qed.

Lemma Generate_StringView_prints (value : string) :
  prints (Generate value) (JString value).
Proof.
  intros file n. unfold Generate, Generate_StringView, emit.
  cbn [json_file_ indent_level_ print_json]. now emit_text.
Qed.

Lemma Generate_uint64_t_prints (value : N) :
  prints (Generate value) (JNumber value).
Proof. intros file n. reflexivity. Qed.

Lemma Generate_Ordinal_prints (value : flat.Ordinal) :
  prints (Generate value) (JNumber (flat.Value value)).
Proof. intros file n. reflexivity. Qed.

Lemma Generate_HandleSubtype_prints (value : types.HandleSubtype) :
  prints (Generate value) (JString (HandleSubtypeName value)).
Proof. exact (Generate_StringView_prints (HandleSubtypeName value)). Qed.

Lemma Generate_PrimitiveSubtype_prints (value : types.PrimitiveSubtype) :
  prints (Generate value) (JString (PrimitiveSubtypeName value)).
Proof. exact (Generate_StringView_prints (PrimitiveSubtypeName value)). Qed.

Lemma Generate_Nullability_prints (value : types.Nullability) :
  prints (Generate value) (json_of_Nullability value).
Proof. intros file n. destruct value; reflexivity. Qed.

Lemma Generate_Identifier_prints (value : raw.Identifier) :
  prints (Generate value) (json_of_Identifier value).
Proof.
  exact (Generate_StringView_prints (raw.data (raw.location value))).
Qed.

Lemma Generate_Name_prints (value : flat.Name) :
  prints (Generate value) (json_of_Name value).
Proof. exact (Generate_StringView_prints (LongName value)). Qed.

Lemma Generate_vector_prints {T} `{Generator T} (f : T -> json)
    (value : list T) :
  (forall x, prints (Generate x) (f x)) ->
  prints (Generate value) (JArray (map f value)).
Proof. intros Hf. apply GenerateArray_prints. intros x _. apply Hf. Qed.

Lemma Generate_CompoundIdentifier_prints (value : raw.CompoundIdentifier) :
  prints (Generate value) (json_of_CompoundIdentifier value).
Proof.
  apply (Generate_vector_prints json_of_Identifier).
  exact Generate_Identifier_prints.
Qed.

#[export] Hint Resolve Generate_bool_prints Generate_StringView_prints
  Generate_uint64_t_prints Generate_Ordinal_prints
  Generate_HandleSubtype_prints Generate_PrimitiveSubtype_prints
  Generate_Nullability_prints Generate_Identifier_prints Generate_Name_prints
  Generate_CompoundIdentifier_prints : prints.

#[export] Hint Resolve prints_members_nil GenerateObjectMember_Subsequent
  : prints.

(** Split an object callback into its first member and the rest, and the
    rest member by member. *)
Ltac object_members :=
  repeat match goal with
  | |- prints (GenerateObject (GenerateObjectMember _ _ First ;; _)) _ =>
      apply GenerateObject_members
  | |- prints_members (GenerateObjectMember _ _ Subsequent) _ =>
      apply GenerateObjectMember_Subsequent
  | |- prints_members (GenerateObjectMember _ _ Subsequent ;; _) _ =>
      apply prints_members_cons
  | |- prints_members (GenerateObjectMember_if_set _ _) _ =>
      apply prints_members_if_set
  | |- prints_members (when _ _) _ =>
      apply prints_members_when; intros _
  | |- prints_members (ret tt) _ => exact prints_members_nil
  | |- prints_members (_ ;; _) _ => apply prints_members_app
  | |- prints (Generate _) (JArray (map _ _)) =>
      apply Generate_vector_prints
  | |- _ => solve [auto with prints]
  end.

(** A member written by hand: separator, key, then the value. *)
Lemma hand_written_member key (c : Gen unit) v :
  prints c v ->
  prints_members
    (n <- indent_level ;;
     emit (fun f => EmitObjectSeparator f n) ;;
     n <- indent_level ;;
     emit (fun f => EmitObjectKey f n key) ;;
     c)
    [(key, v)].
Proof.
  intros Hc file n. run_gen. rewrite Hc. emit_text.
  cbn [print_more_members]. unfold print_member.
  cbn [fst snd]. now rewrite !append_assoc, append_nil_r.
Qed.

Lemma EmitLiteral_prints (value : string) :
  prints (emit (fun f => EmitLiteral f value)) (JVerbatim value).
Proof. intros file n. reflexivity. Qed.

Lemma Generate_Literal_prints (value : raw.Literal) :
  prints (Generate value) (json_of_Literal value).
Proof.
  unfold Generate, Generate_Literal, json_of_Literal.
  destruct value; cbn [raw.Literal_kind].
  - apply GenerateObject_members;
      [auto with prints
      | apply hand_written_member, EmitLiteral_prints].
  - object_members.
  - object_members.
  - object_members.
  - object_members.
Qed.

#[export] Hint Resolve Generate_Literal_prints : prints.

Lemma Generate_Constant_prints (value : raw.Constant) :
  prints (Generate value) (json_of_Constant value).
Proof.
  unfold Generate at 1, Generate_Constant, json_of_Constant.
  destruct value; cbn [raw.Constant_kind]; object_members.
Qed.

#[export] Hint Resolve Generate_Constant_prints : prints.

Lemma Generate_Type_prints (value : raw.Type_) :
  prints (Generate_Type value) (json_of_Type value).
Proof.
  induction value; cbn [Generate_Type json_of_Type raw.Type_kind];
    unfold nullable_member; object_members.
Qed.

Lemma Generate_Type__prints (value : raw.Type_) :
  prints (Generate value) (json_of_Type value).
Proof. exact (Generate_Type_prints value). Qed.

#[export] Hint Resolve Generate_Type__prints : prints.

Lemma Generate_Const_prints (value : flat.Const.t) :
  prints (Generate value) (json_of_Const value).
Proof.
  unfold Generate at 1, Generate_Const, json_of_Const. object_members.
Qed.

Lemma Generate_Enum_Member_prints (value : flat.Enum.Member.t) :
  prints (Generate value) (json_of_Enum_Member value).
Proof.
  unfold Generate at 1, Generate_Enum_Member, json_of_Enum_Member.
  object_members.
Qed.

#[export] Hint Resolve Generate_Enum_Member_prints : prints.

Lemma Generate_Enum_prints (value : flat.Enum.t) :
  prints (Generate value) (json_of_Enum value).
Proof.
  unfold Generate at 1, Generate_Enum, json_of_Enum.
  destruct (flat.Enum.type value); object_members.
Qed.

Lemma Generate_Parameter_prints (value : flat.Interface.Method.Parameter_.t) :
  prints (Generate value) (json_of_Parameter value).
Proof.
  unfold Generate at 1, Generate_Parameter, json_of_Parameter.
  object_members.
Qed.

#[export] Hint Resolve Generate_Parameter_prints : prints.

Lemma Generate_Method_prints (value : flat.Interface.Method.t) :
  prints (Generate value) (json_of_Method value).
Proof.
  unfold Generate at 1, Generate_Method, json_of_Method.
  object_members.
Qed.

#[export] Hint Resolve Generate_Method_prints : prints.

Lemma Generate_Interface_prints (value : flat.Interface.t) :
  prints (Generate value) (json_of_Interface value).
Proof.
  unfold Generate at 1, Generate_Interface, json_of_Interface.
  object_members.
Qed.

Lemma Generate_Struct_Member_prints (value : flat.Struct.Member.t) :
  prints (Generate value) (json_of_Struct_Member value).
Proof.
  unfold Generate at 1, Generate_Struct_Member, json_of_Struct_Member.
  object_members.
Qed.

#[export] Hint Resolve Generate_Struct_Member_prints : prints.

Lemma Generate_Struct_prints (value : flat.Struct.t) :
  prints (Generate value) (json_of_Struct value).
Proof.
  unfold Generate at 1, Generate_Struct, json_of_Struct. object_members.
Qed.

Lemma Generate_Union_Member_prints (value : flat.Union.Member.t) :
  prints (Generate value) (json_of_Union_Member value).
Proof.
  unfold Generate at 1, Generate_Union_Member, json_of_Union_Member.
  object_members.
Qed.

#[export] Hint Resolve Generate_Union_Member_prints : prints.

Lemma Generate_Union_prints (value : flat.Union.t) :
  prints (Generate value) (json_of_Union value).
Proof.
  unfold Generate at 1, Generate_Union, json_of_Union. object_members.
Qed.

#[export] Hint Resolve Generate_Const_prints Generate_Enum_prints
  Generate_Interface_prints Generate_Struct_prints Generate_Union_prints
  : prints.

(** ** The declaration map and the whole document *)

Lemma print_object_body_snoc level done m :
  print_object_body level (done ++ [m])%list =
  print_object_body level done
  ++ (match done with
      | [] => newline_indent (level + 1)
      | _ => "," ++ newline_indent (level + 1)
      end)
  ++ print_member (level + 1) m.
Proof.
  destruct done as [|m0 done]; cbn [app print_object_body].
  - cbn [print_more_members]. now rewrite append_nil_r.
  - rewrite print_more_members_app. cbn [print_more_members].
    now rewrite !append_assoc, append_nil_r.
Qed.

Lemma level_inside_snoc level done (m : string * json) :
  level_inside level (done ++ [m])%list = level + 1.
Proof. now destruct done. Qed.

(** One entry, written after the entries [done]: the counter of entries
    tells whether it is the first. *)
Lemma GenerateDeclarationMapEntry_run done name decl file n :
  GenerateDeclarationMapEntry (Z.of_nat (length done)) name decl
    (mkGen (file ++ print_object_body n done) (level_inside n done)) =
  (tt, mkGen (file ++ print_object_body n
                        (done ++ [(LongName name, JString decl)])%list)
             (n + 1)).
Proof.
  rewrite print_object_body_snoc. unfold GenerateDeclarationMapEntry.
  destruct done as [|m0 done].
  - cbn [length Z.of_nat Z.eqb level_inside]. run_gen. emit_text.
    unfold print_member. cbn [fst snd print_json].
    now rewrite !append_assoc.
  - replace (Z.of_nat (length (m0 :: done)) =? 0) with false
      by (symmetry; apply Z.eqb_neq; cbn [length]; lia).
    cbn [level_inside]. run_gen. emit_text.
    unfold print_member. cbn [fst snd print_json].
    now rewrite !append_assoc.
Qed.

Lemma GenerateDeclarationMapEntries_run {D} (name : D -> flat.Name) kind :
  forall decls done file n,
    GenerateDeclarationMapEntries name kind (Z.of_nat (length done)) decls
      (mkGen (file ++ print_object_body n done) (level_inside n done)) =
    (Z.of_nat (length (done ++ declaration_entries name kind decls)),
     mkGen (file ++ print_object_body n
                      (done ++ declaration_entries name kind decls)%list)
           (level_inside n (done ++ declaration_entries name kind decls))).
Proof.
  induction decls as [|decl rest IH]; intros done file n;
    cbn [GenerateDeclarationMapEntries declaration_entries map].
  - now rewrite app_nil_r.
  - unfold bind. rewrite GenerateDeclarationMapEntry_run.
    rewrite <- (level_inside_snoc n done
                  (LongName (name decl), JString kind)).
    replace (Z.of_nat (length done) + 1)
      with (Z.of_nat (length (done ++ [(LongName (name decl), JString kind)])))
      by (rewrite length_app; cbn [length]; lia).
    rewrite IH. unfold declaration_entries.
    now rewrite <- !app_assoc.
Qed.

Lemma GenerateDeclarationMap_run library_ file n :
  GenerateDeclarationMap library_ (mkGen file n) =
  (tt, mkGen (file ++ print_object_body n (declaration_map library_))
             (level_inside n (declaration_map library_))).
Proof.
  unfold GenerateDeclarationMap, declaration_map, bind.
  pose proof (GenerateDeclarationMapEntries_run flat.Const.name "const"
                (flat.Library.const_declarations_ library_) [] file n) as E.
  cbn [length Z.of_nat print_object_body level_inside app] in E.
  rewrite append_nil_r in E. rewrite E. clear E.
  rewrite !GenerateDeclarationMapEntries_run.
  unfold ret. now rewrite <- !app_assoc.
Qed.

(** The object rule for a callback that writes a whole body. *)
Lemma GenerateObject_body callback ms :
  (forall file n,
     callback (mkGen file n) =
     (tt, mkGen (file ++ print_object_body n ms) (level_inside n ms))) ->
  prints (GenerateObject callback) (JObject ms).
Proof.
  intros Hc file n. unfold GenerateObject. run_gen. rewrite Hc.
  destruct ms as [|m ms]; cbn [level_inside print_object_body json_file_
                                 indent_level_].
  - rewrite Z.gtb_ltb, Z.ltb_irrefl. cbn [json_file_ indent_level_].
    unfold EmitObjectBegin, EmitObjectEnd.
    now rewrite append_nil_r, append_assoc.
  - replace (n + 1 >? n) with true by (symmetry; apply Z.gtb_lt; lia).
    cbn [json_file_ indent_level_].
    replace (n + 1 - 1) with n by lia.
    emit_text. unfold EmitObjectBegin, EmitObjectEnd.
    rewrite print_json_object. now rewrite !append_assoc.
Qed.

Lemma GenerateDeclarationMap_prints library_ :
  prints (GenerateObject (GenerateDeclarationMap library_))
         (JObject (declaration_map library_)).
Proof.
  apply GenerateObject_body. intros file n.
  apply GenerateDeclarationMap_run.
Qed.

Lemma Generate_no_dependencies_prints :
  prints (Generate (@nil bool)) (JArray []).
Proof. exact (Generate_vector_prints JBool [] Generate_bool_prints). Qed.

(** The top-level object. *)
Lemma Library_object_prints library_ :
  prints
    (GenerateObject (
       GenerateObjectMember "name" (flat.Library.library_name_ library_)
                            First ;;
       GenerateObjectMember "library_dependencies" (@nil bool) Subsequent ;;
       GenerateObjectMember "const_declarations"
         (flat.Library.const_declarations_ library_) Subsequent ;;
       GenerateObjectMember "enum_declarations"
         (flat.Library.enum_declarations_ library_) Subsequent ;;
       GenerateObjectMember "interface_declarations"
         (flat.Library.interface_declarations_ library_) Subsequent ;;
       GenerateObjectMember "struct_declarations"
         (flat.Library.struct_declarations_ library_) Subsequent ;;
       GenerateObjectMember "union_declarations"
         (flat.Library.union_declarations_ library_) Subsequent ;;
       GenerateObjectMember "declaration_order"
         (flat.Library.declaration_order_ library_) Subsequent ;;
       n <- indent_level ;;
       emit (fun f => EmitObjectSeparator f n) ;;
       n <- indent_level ;;
       emit (fun f => EmitObjectKey f n "declarations") ;;
       GenerateObject (GenerateDeclarationMap library_)))
    (json_of_Library library_).
Proof.
  unfold json_of_Library.
  apply GenerateObject_members; [auto with prints|].
  apply prints_members_cons; [exact Generate_no_dependencies_prints|].
  do 6 (apply prints_members_cons;
        [apply Generate_vector_prints; auto with prints|]).
  apply hand_written_member, GenerateDeclarationMap_prints.
Qed.

(** The document: whatever the stream held, then the library's object
    printed at level 0, then one line feed; the counter is 0 at the end. *)
Lemma ProduceJSON_run library_ g :
  ProduceJSON library_ g =
  (json_file_ g ++ print_json 0 (json_of_Library library_) ++ str linefeed,
   mkGen EmptyString 0).
Proof.
  unfold ProduceJSON. unfold bind at 1 2.
  rewrite (Library_object_prints library_ (json_file_ g) 0).
  unfold bind, GenerateEOF, emit, move_json_file_, EmitNewline.
  cbn [json_file_ indent_level_]. now rewrite append_assoc.
Qed.

Lemma document_prints library_ :
  document library_ =
  print_json 0 (json_of_Library library_) ++ str linefeed.
Proof. unfold document. now rewrite ProduceJSON_run. Qed.


Lemma writes_restores_indent c text : writes c text -> restores_indent c.
Proof. intros H [file n]. now rewrite H. Qed.

Lemma prints_restores_indent c v : prints c v -> restores_indent c.
Proof. apply writes_restores_indent. Qed.

(** * Sample runs *)

Example EmitString_a_quote_b :
  EmitString "" a_quote_b =
  String dquote (String backslash (String dquote (String "a"
    (String backslash (String backslash (String backslash (String dquote
      (String "b" (String backslash (String dquote (str dquote))))))))))).
Proof. reflexivity. Qed.

Example Generate_compound_identifier_a_b :
  json_file_ (snd (Generate (raw.mkCompoundIdentifier
                               [identifier "a"; identifier "b"])
                            fresh_generator)) =
  lines ["[";
         "  " ++ q "a" ++ ",";
         "  " ++ q "b";
         "]"].
Proof. reflexivity. Qed.

Example Generate_nullable_vector_of_uint32 :
  json_file_ (snd (Generate (raw.VectorType uint32 None types.Nullable)
                            fresh_generator)) =
  lines ["{";
         "  " ++ q "kind" ++ ": " ++ q "vector" ++ ",";
         "  " ++ q "element_type" ++ ": {";
         "    " ++ q "kind" ++ ": " ++ q "primitive" ++ ",";
         "    " ++ q "subtype" ++ ": " ++ q "uint32";
         "  },";
         "  " ++ q "nullable" ++ ": true";
         "}"].
Proof. reflexivity. Qed.

Example Generate_numeric_literal_42 :
  json_file_ (snd (Generate (raw.NumericLiteral (raw.mkSourceLocation "42"))
                            fresh_generator)) =
  lines ["{";
         "  " ++ q "kind" ++ ": " ++ q "numeric" ++ ",";
         "  " ++ q "value" ++ ": " ++ q "42";
         "}"].
Proof. reflexivity. Qed.

Example Generate_string_literal_a_quote_b :
  json_file_ (snd (Generate (raw.StringLiteral
                               (raw.mkSourceLocation a_quote_b))
                            fresh_generator)) =
  lines ["{";
         "  " ++ q "kind" ++ ": " ++ q "string" ++ ",";
         "  " ++ q "value" ++ ": " ++ a_quote_b;
         "}"].
Proof. reflexivity. Qed.

Example document_library_example :
  document library_example =
  lines ["{";
         "  " ++ q "name" ++ ": " ++ q "example" ++ ",";
         "  " ++ q "library_dependencies" ++ ": [],";
         "  " ++ q "const_declarations" ++ ": [],";
         "  " ++ q "enum_declarations" ++ ": [],";
         "  " ++ q "interface_declarations" ++ ": [],";
         "  " ++ q "struct_declarations" ++ ": [";
         "    {";
         "      " ++ q "name" ++ ": " ++ q "S" ++ ",";
         "      " ++ q "members" ++ ": [";
         "        {";
         "          " ++ q "type" ++ ": {";
         "            " ++ q "kind" ++ ": " ++ q "primitive" ++ ",";
         "            " ++ q "subtype" ++ ": " ++ q "uint32";
         "          },";
         "          " ++ q "name" ++ ": " ++ q "x" ++ ",";
         "          " ++ q "offset" ++ ": 0";
         "        }";
         "      ],";
         "      " ++ q "size" ++ ": 4";
         "    }";
         "  ],";
         "  " ++ q "union_declarations" ++ ": [],";
         "  " ++ q "declaration_order" ++ ": [";
         "    " ++ q "S";
         "  ],";
         "  " ++ q "declarations" ++ ": {";
         "    " ++ q "S" ++ ": " ++ q "struct";
         "  }";
         "}";
         ""].
Proof. reflexivity. Qed.

(** * The claims *)

(** ** String literals *)

(** C1, as amended: the "value" member of a String literal is the source
    text of the literal exactly as it stands -- the generator hands it to
    [EmitLiteral], which adds no quotes and escapes nothing.  The object
    written is the "kind" member with the string "string", a separator, the
    key "value" and the source text.  The escaping -- a backslash in front of
    a quote and of a backslash, every other byte unchanged, the whole between
    two quotes -- is what [EmitString] does, for keys, names and strings. *)
Theorem string_literal_value_is_source_text :
  (forall (location : raw.SourceLocation) (file : string) (n : Z),
     Generate (raw.StringLiteral location) (mkGen file n) =
     (tt, mkGen (file ++ "{" ++ newline_indent (n + 1)
                      ++ quoted "kind" ++ ": " ++ quoted "string"
                      ++ "," ++ newline_indent (n + 1)
                      ++ quoted "value" ++ ": " ++ raw.data location
                      ++ newline_indent n ++ "}")
                n))
  /\ (forall file value,
        EmitString file value = file ++ str dquote ++ escape value
                                ++ str dquote).
Proof.
  split; [|exact EmitString_quoted].
  intros location file n.
  rewrite (Generate_Literal_prints (raw.StringLiteral location) file n).
  unfold json_of_Literal. cbn [raw.Literal_kind LiteralKindName].
  rewrite print_json_object. cbn [print_more_members].
  unfold print_member. cbn [fst snd print_json].
  rewrite !append_assoc. cbn [append]. reflexivity.
Qed.

(** C1 as stated fails: for the literal whose source text is the six bytes
    quote, a, backslash, quote, b, quote, the "value" member is those six
    bytes, not their escaped and quoted rendering (twelve bytes). *)
Lemma string_literal_value_not_escaped :
  let literal := raw.StringLiteral (raw.mkSourceLocation a_quote_b) in
  let object_with value :=
    "{" ++ newline_indent 1 ++ quoted "kind" ++ ": " ++ quoted "string"
    ++ "," ++ newline_indent 1 ++ quoted "value" ++ ": " ++ value
    ++ newline_indent 0 ++ "}" in
  json_file_ (snd (Generate literal fresh_generator)) = object_with a_quote_b
  /\ json_file_ (snd (Generate literal fresh_generator))
     <> object_with (quoted a_quote_b)
  /\ quoted a_quote_b =
     String dquote (String backslash (String dquote (String "a"
       (String backslash (String backslash (String backslash (String dquote
         (String "b" (String backslash (String dquote (str dquote))))))))))).
Proof.
  cbv zeta. repeat split.
  vm_compute. discriminate.
Qed.

(** ** Compound identifiers *)

(** C10: a compound identifier is written as a JSON array with one string
    per component, in the order of the components; the text starts with an
    opening bracket and ends with a closing one, so it is never one string
    with the components joined by dots. *)
Theorem compound_identifier_is_array_of_strings
    (value : raw.CompoundIdentifier) :
  prints (Generate value)
         (JArray (map (fun component =>
                         JString (raw.data (raw.location component)))
                      (raw.components value)))
  /\ forall file n, exists between,
       Generate value (mkGen file n) =
       (tt, mkGen (file ++ "[" ++ between ++ "]") n).
Proof.
  pose proof (Generate_CompoundIdentifier_prints value) as Hp.
  split; [exact Hp|].
  intros file n. rewrite Hp. unfold json_of_CompoundIdentifier.
  destruct (raw.components value) as [|x xs]; cbn [map].
  - exists EmptyString. reflexivity.
  - rewrite print_json_array.
    exists (newline_indent (n + 1)
            ++ print_json (n + 1) (json_of_Identifier x)
            ++ print_more_elements (n + 1) (map json_of_Identifier xs)
            ++ newline_indent n).
    now rewrite !append_assoc.
Qed.

(** ** Optional members *)

(** C4: a struct member without a default value is written as an object
    with the three keys type, name, offset in this order; with a default
    value the key maybe_default_value comes between name and offset.  An
    absent optional value leaves no member behind: so too the element count
    of a String type and the type of an Enum whose type is not primitive. *)
Theorem struct_member_keys :
  (forall type name offset,
     prints (Generate (flat.Struct.Member.mk type name None offset))
            (JObject [("type", json_of_Type type);
                      ("name", json_of_Identifier name);
                      ("offset", JNumber offset)]))
  /\ (forall type name default offset,
        prints (Generate (flat.Struct.Member.mk type name (Some default)
                                                offset))
               (JObject [("type", json_of_Type type);
                         ("name", json_of_Identifier name);
                         ("maybe_default_value", json_of_Constant default);
                         ("offset", JNumber offset)]))
  /\ (forall nullability,
        prints (Generate (raw.StringType None nullability))
               (JObject [("kind", JString "string");
                         ("nullable", json_of_Nullability nullability)]))
  /\ (forall name type members,
        prints (Generate (flat.Enum.mk name type members))
               (JObject (("name", json_of_Name name) ::
                         match type with
                         | raw.PrimitiveType subtype =>
                             [("type",
                               JString (PrimitiveSubtypeName subtype))]
                         | _ => []
                         end
                         ++ [("members",
                              JArray (map json_of_Enum_Member members))])%list)).
Proof.
  repeat split; intros.
  - exact (Generate_Struct_Member_prints
             (flat.Struct.Member.mk type name None offset)).
  - exact (Generate_Struct_Member_prints
             (flat.Struct.Member.mk type name (Some default) offset)).
  - exact (Generate_Type_prints (raw.StringType None nullability)).
  - exact (Generate_Enum_prints (flat.Enum.mk name type members)).
Qed.

(** ** Kinds and nullability *)

(** C6: a nullable Vector type without a bound is written as the object
    with the three members kind = "vector", element_type, nullable = true,
    in this order; and the object of every Literal, Type and Constant starts
    with a "kind" member whose value is the enumerator of the node's kind in
    lower case. *)
Theorem nullable_vector_and_kind_first :
  (forall element_type,
     prints (Generate (raw.VectorType element_type None types.Nullable))
            (JObject [("kind", JString "vector");
                      ("element_type", json_of_Type element_type);
                      ("nullable", JBool true)]))
  /\ (forall value : raw.Literal,
        prints (Generate value) (json_of_Literal value)
        /\ hd_error (members_of (json_of_Literal value)) =
           Some ("kind",
                 JString (lowercase (LiteralKind_enumerator
                                       (raw.Literal_kind value)))))
  /\ (forall value : raw.Type_,
        prints (Generate value) (json_of_Type value)
        /\ hd_error (members_of (json_of_Type value)) =
           Some ("kind",
                 JString (lowercase (TypeKind_enumerator
                                       (raw.Type_kind value)))))
  /\ (forall value : raw.Constant,
        prints (Generate value) (json_of_Constant value)
        /\ hd_error (members_of (json_of_Constant value)) =
           Some ("kind",
                 JString (lowercase (ConstantKind_enumerator
                                       (raw.Constant_kind value))))).
Proof.
  split; [|split; [|split]].
  - intros element_type.
    exact (Generate_Type_prints
             (raw.VectorType element_type None types.Nullable)).
  - intros value. split; [exact (Generate_Literal_prints value)|].
    now destruct value.
  - intros value. split; [exact (Generate_Type_prints value)|].
    now destruct value.
  - intros value. split; [exact (Generate_Constant_prints value)|].
    now destruct value.
Qed.

(** C7: the object of a Type has a "nullable" member exactly when the Type
    is a Vector, String, Handle, Request or Identifier type; there is then
    one such member and its value is the boolean true for a nullable type
    and false for a non-nullable one.  The object of an Array or Primitive
    type has no "nullable" member. *)
Theorem nullable_member_by_kind (value : raw.Type_) :
  prints (Generate value) (json_of_Type value)
  /\ let ms := members_of (json_of_Type value) in
     match value with
     | raw.ArrayType _ _ | raw.PrimitiveType _ =>
         member "nullable" ms = None
         /\ filter (String.eqb "nullable") (map fst ms) = []
     | raw.VectorType _ _ nullability
     | raw.StringType _ nullability
     | raw.HandleType _ nullability
     | raw.RequestType _ nullability
     | raw.IdentifierType _ nullability =>
         member "nullable" ms =
         Some (JBool match nullability with
                     | types.Nullable => true
                     | types.Nonnullable => false
                     end)
         /\ filter (String.eqb "nullable") (map fst ms) = ["nullable"]
     end.
Proof.
  split; [exact (Generate_Type_prints value)|].
  destruct value as [et ec|et [mec|] nb|[mec|] nb|st nb|st nb|st|id nb];
    try destruct nb; split; reflexivity.
Qed.

(** ** The document *)

(** C2: the document of a library is one object, followed by a line feed,
    whose members are, in this order: name, library_dependencies,
    const_declarations, enum_declarations, interface_declarations,
    struct_declarations, union_declarations, declaration_order,
    declarations; the value of library_dependencies is the empty array
    whatever the library. *)
Theorem document_members_in_order (library_ : flat.Library.t) :
  document library_ =
  print_json 0 (JObject [
    ("name", json_of_Name (flat.Library.library_name_ library_));
    ("library_dependencies", JArray []);
    ("const_declarations",
     JArray (map json_of_Const (flat.Library.const_declarations_ library_)));
    ("enum_declarations",
     JArray (map json_of_Enum (flat.Library.enum_declarations_ library_)));
    ("interface_declarations",
     JArray (map json_of_Interface
                 (flat.Library.interface_declarations_ library_)));
    ("struct_declarations",
     JArray (map json_of_Struct (flat.Library.struct_declarations_ library_)));
    ("union_declarations",
     JArray (map json_of_Union (flat.Library.union_declarations_ library_)));
    ("declaration_order",
     JArray (map json_of_Name (flat.Library.declaration_order_ library_)));
    ("declarations", JObject (declaration_map library_))])
  ++ str linefeed
  /\ print_json 1 (JArray []) = "[]".
Proof. split; [exact (document_prints library_) | reflexivity]. Qed.

(** C3: the declarations member is an object with one entry per
    declaration, the name as the key and the name of the kind as the value,
    the constants first, then the enums, the interfaces, the structs and the
    unions, each collection in its stored order; it is the last member of the
    document.  For a library with one constant A and one enum B the object is
    the entry of A with "const" followed by the entry of B with "enum". *)
Theorem declarations_map_in_kind_order :
  (forall library_,
     let entries :=
       (map (fun decl => (LongName (flat.Const.name decl), JString "const"))
            (flat.Library.const_declarations_ library_)
        ++ map (fun decl => (LongName (flat.Enum.name decl), JString "enum"))
               (flat.Library.enum_declarations_ library_)
        ++ map (fun decl =>
                  (LongName (flat.Interface.name decl), JString "interface"))
               (flat.Library.interface_declarations_ library_)
        ++ map (fun decl =>
                  (LongName (flat.Struct.name decl), JString "struct"))
               (flat.Library.struct_declarations_ library_)
        ++ map (fun decl => (LongName (flat.Union.name decl), JString "union"))
               (flat.Library.union_declarations_ library_))%list in
     prints (GenerateObject (GenerateDeclarationMap library_))
            (JObject entries)
     /\ exists front,
          document library_ =
          front ++ "," ++ newline_indent 1
          ++ quoted "declarations" ++ ": " ++ print_json 1 (JObject entries)
          ++ newline_indent 0 ++ "}" ++ str linefeed)
  /\ (forall library_name A_type A_value B_type B_members order,
        let A := flat.mkName (raw.mkIdentifier (raw.mkSourceLocation "A")) in
        let B := flat.mkName (raw.mkIdentifier (raw.mkSourceLocation "B")) in
        let library_ :=
          flat.Library.mk library_name
            [flat.Const.mk A A_type A_value]
            [flat.Enum.mk B B_type B_members] [] [] [] order in
        prints (GenerateObject (GenerateDeclarationMap library_))
               (JObject [("A", JString "const"); ("B", JString "enum")])
        /\ print_json 1 (JObject [("A", JString "const");
                                  ("B", JString "enum")]) =
           "{" ++ newline_indent 2 ++ quoted "A" ++ ": " ++ quoted "const"
           ++ "," ++ newline_indent 2 ++ quoted "B" ++ ": " ++ quoted "enum"
           ++ newline_indent 1 ++ "}").
Proof.
  split.
  - intros library_ entries. split.
    + exact (GenerateDeclarationMap_prints library_).
    + rewrite document_prints. unfold json_of_Library.
      rewrite print_json_object.
      change (declaration_map library_) with entries.
      set (declarations := ("declarations", JObject entries)).
      set (first := print_member (0 + 1) _).
      match goal with
      | |- context [print_more_members (0 + 1) (?a :: ?b :: ?c :: ?d :: ?e
                                                  :: ?f :: ?g :: ?h)] =>
          change (a :: b :: c :: d :: e :: f :: g :: h)
            with ([a; b; c; d; e; f; g] ++ h)%list;
          set (middle := [a; b; c; d; e; f; g])
      end.
      rewrite print_more_members_app.
      exists ("{" ++ newline_indent (0 + 1) ++ first
              ++ print_more_members (0 + 1) middle).
      subst declarations. cbn [print_more_members].
      unfold print_member at 1. cbn [fst snd].
      change (0 + 1) with 1.
      now rewrite !append_assoc.
  - intros library_name A_type A_value B_type B_members order A B library_.
    split.
    + exact (GenerateDeclarationMap_prints library_).
    + reflexivity.
Qed.

(** C8: the document ends with the closing brace of its top-level object
    followed by one line feed, and nothing after it. *)
Theorem document_ends_with_one_newline (library_ : flat.Library.t) :
  exists inside,
    print_json 0 (json_of_Library library_) = "{" ++ inside ++ "}"
    /\ document library_ = "{" ++ inside ++ "}" ++ str linefeed.
Proof.
  rewrite document_prints. unfold json_of_Library.
  rewrite print_json_object.
  match goal with
  | |- context [newline_indent (0 + 1) ++ ?first ++ ?more
                ++ newline_indent 0 ++ "}"] =>
      exists (newline_indent (0 + 1) ++ first ++ more ++ newline_indent 0)
  end.
  split; now rewrite !append_assoc.
Qed.

(** ** The indent level *)

Lemma restoring_vector {T} `{Generator T} (f : T -> json) :
  (forall x, prints (Generate x) (f x)) -> restoring (list T).
Proof.
  intros Hf value.
  exact (prints_restores_indent _ _ (Generate_vector_prints f value Hf)).
Qed.

(** C5: an object is closed by one decrement exactly when its callback has
    raised the counter, and by none otherwise; every object and array the
    generator writes -- with or without its optional members -- leaves the
    counter at the value it had on entry; a document starts at level 0,
    whatever the counter was before, and ends at level 0. *)
Theorem indent_level_restored :
  (forall callback g,
     let inner :=
       indent_level_
         (snd (callback (mkGen (EmitObjectBegin (json_file_ g))
                               (indent_level_ g)))) in
     indent_level_ (snd (GenerateObject callback g)) =
     if inner >? indent_level_ g then inner - 1 else inner)
  /\ (restoring raw.Literal /\ restoring raw.Constant /\ restoring raw.Type_
      /\ restoring flat.Const.t
      /\ restoring flat.Enum.t /\ restoring flat.Enum.Member.t
      /\ restoring flat.Interface.t /\ restoring flat.Interface.Method.t
      /\ restoring flat.Interface.Method.Parameter_.t
      /\ restoring flat.Struct.t /\ restoring flat.Struct.Member.t
      /\ restoring flat.Union.t /\ restoring flat.Union.Member.t)
  /\ (restoring raw.CompoundIdentifier /\ restoring (list bool)
      /\ restoring (list flat.Name) /\ restoring (list flat.Const.t)
      /\ restoring (list flat.Enum.t) /\ restoring (list flat.Enum.Member.t)
      /\ restoring (list flat.Interface.t)
      /\ restoring (list flat.Interface.Method.t)
      /\ restoring (list flat.Interface.Method.Parameter_.t)
      /\ restoring (list flat.Struct.t)
      /\ restoring (list flat.Struct.Member.t)
      /\ restoring (list flat.Union.t)
      /\ restoring (list flat.Union.Member.t))
  /\ (forall library_,
        restores_indent (GenerateObject (GenerateDeclarationMap library_)))
  /\ (forall library_ g,
        ProduceJSON library_ g
        = ProduceJSON library_ (mkGen (json_file_ g) 0)
        /\ indent_level_ (snd (ProduceJSON library_ g)) = 0).
Proof.
  split; [|split; [|split; [|split]]].
  - intros callback g inner. subst inner. unfold GenerateObject. run_gen.
    destruct (callback _) as [[] g1]. cbn [snd].
    now destruct (indent_level_ g1 >? indent_level_ g).
  - repeat split; intros value; eapply prints_restores_indent;
      auto with prints.
  - repeat split;
      first [ intros value; eapply prints_restores_indent;
              solve [auto with prints]
            | eapply restoring_vector; solve [auto with prints] ].
  - intros library_.
    exact (prints_restores_indent _ _ (GenerateDeclarationMap_prints library_)).
  - intros library_ g. now rewrite !ProduceJSON_run.
Qed.

(** ** Tags outside the closed sets *)



(** * Further properties of the generator *)

(** ** Strings *)

Lemma length_append (a b : string) :
  String.length (a ++ b) = (String.length a + String.length b)%nat.
Proof. induction a as [|x a IH]; simpl; [reflexivity | now rewrite IH]. Qed.

Lemma append_inv_head (a b c : string) : a ++ b = a ++ c -> b = c.
Proof.
  induction a as [|x a IH]; simpl; intros E; [exact E|].
  injection E as E. now apply IH.
Qed.

Lemma append_inv_last (c : ascii) : forall a b : string,
  a ++ str c = b ++ str c -> a = b.
Proof.
  induction a as [|x a IH]; intros [|y b] E; simpl in E.
  - reflexivity.
  - injection E as _ E. now destruct b.
  - injection E as _ E. now destruct a.
  - injection E as -> E. f_equal. now apply IH.
Qed.

Lemma unescape_escape_append (s t : string) :
  unescape (escape s ++ t) = s ++ unescape t.
Proof.
  induction s as [|c s IH]; [reflexivity|].
  cbn [escape].
  destruct (Ascii.eqb c dquote) eqn:Eq.
  - apply Ascii.eqb_eq in Eq. subst c. cbn. now rewrite IH.
  - destruct (Ascii.eqb c backslash) eqn:Eb.
    + apply Ascii.eqb_eq in Eb. subst c. cbn. now rewrite IH.
    + cbn [append unescape]. rewrite Eb. cbn [append]. now rewrite IH.
Qed.

Lemma escape_plain (s : string) : plain s = true -> escape s = s.
Proof.
  induction s as [|c s IH]; [reflexivity|].
  cbn [plain escape]. unfold special.
  destruct (Ascii.eqb c dquote); [discriminate|].
  destruct (Ascii.eqb c backslash); [discriminate|].
  cbn [orb negb andb]. intros Hs. now rewrite IH.
Qed.

Lemma length_escape (s : string) :
  String.length (escape s) = (String.length s + count_special s)%nat.
Proof.
  induction s as [|c s IH]; [reflexivity|].
  cbn [escape count_special String.length]. unfold special.
  destruct (Ascii.eqb c dquote); [|destruct (Ascii.eqb c backslash)];
    cbn [String.length orb]; lia.
Qed.

(** X1: [EmitString] loses nothing: two strings that it writes alike, after
    the same stream content, are the same string. *)
Theorem EmitString_injective (file a b : string) :
  EmitString file a = EmitString file b -> a = b.
Proof.
  rewrite !EmitString_quoted. intros E.
  apply append_inv_head in E. unfold quoted in E.
  cbn [append str] in E. injection E as E.
  apply (f_equal unescape) in E.
  rewrite !unescape_escape_append in E.
  now apply append_inv_last in E.
Qed.

Lemma EmitString_injective_witness :
  EmitString "{" a_quote_b = EmitString "{" a_quote_b
  /\ a_quote_b = a_quote_b.
Proof.
  split; [reflexivity|].
  apply (EmitString_injective "{" a_quote_b a_quote_b). reflexivity.
Defined.

(** X2: text without a quote and without a backslash is written as it is
    between two quotes; control characters such as a tab or a line feed are
    among the characters written unchanged. *)
Theorem EmitString_plain_text_unchanged (file value : string) :
  plain value = true ->
  EmitString file value = file ++ str dquote ++ value ++ str dquote.
Proof.
  intros Hp. rewrite EmitString_quoted. unfold quoted.
  now rewrite (escape_plain value Hp).
Qed.

Lemma EmitString_plain_text_unchanged_witness :
  plain tab_and_linefeed = true
  /\ EmitString "" tab_and_linefeed
     = "" ++ str dquote ++ tab_and_linefeed ++ str dquote.
Proof.
  split; [reflexivity|].
  apply (EmitString_plain_text_unchanged "" tab_and_linefeed). reflexivity.
Defined.

(** X3: [EmitString] adds two bytes for the quotes and one byte for every
    quote and every backslash of the string. *)
Theorem EmitString_length (file value : string) :
  String.length (EmitString file value) =
  (String.length file + String.length value + count_special value + 2)%nat.
Proof.
  rewrite EmitString_quoted. unfold quoted.
  rewrite !length_append, length_escape. cbn [String.length str]. lia.
Qed.

(** X4: at a level that is not negative a line break is one line feed and
    two spaces per level. *)
Theorem EmitNewlineAndIndent_length (file : string) (level : Z) :
  0 <= level ->
  Z.of_nat (String.length (EmitNewlineAndIndent file level)) =
  Z.of_nat (String.length file) + 1 + 2 * level.
Proof.
  intros Hlevel.
  rewrite EmitNewlineAndIndent_text, length_append. unfold newline_indent.
  rewrite length_append. cbn [String.length str].
  assert (L : forall count, String.length (indent count) = (2 * count)%nat).
  { induction count as [|count IH]; cbn [indent]; [reflexivity|].
    rewrite length_append, IH. cbn [String.length kIndent]. lia. }
  rewrite L. lia.
Qed.

Lemma EmitNewlineAndIndent_length_witness :
  0 <= 3
  /\ Z.of_nat (String.length (EmitNewlineAndIndent "{" 3)) =
     Z.of_nat (String.length "{") + 1 + 2 * 3.
Proof.
  split; [lia|].
  apply (EmitNewlineAndIndent_length "{" 3). lia.
Defined.

(** ** Names of tags *)

(** X5: the five name functions give different tags different names. *)
Theorem tag_names_injective :
  (forall a b, PrimitiveSubtypeName a = PrimitiveSubtypeName b -> a = b)
  /\ (forall a b, HandleSubtypeName a = HandleSubtypeName b -> a = b)
  /\ (forall a b, LiteralKindName a = LiteralKindName b -> a = b)
  /\ (forall a b, TypeKindName a = TypeKindName b -> a = b)
  /\ (forall a b, ConstantKindName a = ConstantKindName b -> a = b).
Proof.
  repeat split; intros a b E; destruct a; destruct b;
    first [reflexivity | discriminate E].
Qed.

Lemma tag_names_injective_witness :
  (PrimitiveSubtypeName types.Uint32 = PrimitiveSubtypeName types.Uint32
   /\ types.Uint32 = types.Uint32)
  /\ (HandleSubtypeName types.Vmo = HandleSubtypeName types.Vmo
      /\ types.Vmo = types.Vmo)
  /\ (LiteralKindName raw.LiteralKind.True = LiteralKindName raw.LiteralKind.True
      /\ raw.LiteralKind.True = raw.LiteralKind.True)
  /\ (TypeKindName raw.TypeKind.String = TypeKindName raw.TypeKind.String
      /\ raw.TypeKind.String = raw.TypeKind.String)
  /\ (ConstantKindName raw.ConstantKind.Literal
      = ConstantKindName raw.ConstantKind.Literal
      /\ raw.ConstantKind.Literal = raw.ConstantKind.Literal).
Proof.
  destruct tag_names_injective as (H1 & H2 & H3 & H4 & H5).
  split; [|split; [|split; [|split]]]; (split; [reflexivity|]).
  - apply (H1 types.Uint32 types.Uint32). reflexivity.
  - apply (H2 types.Vmo types.Vmo). reflexivity.
  - apply (H3 raw.LiteralKind.True raw.LiteralKind.True). reflexivity.
  - apply (H4 raw.TypeKind.String raw.TypeKind.String). reflexivity.
  - apply (H5 raw.ConstantKind.Literal raw.ConstantKind.Literal). reflexivity.
Defined.

(** X6: no name of a tag has a quote or a backslash in it, so [EmitString]
    writes every one of them as it is between two quotes. *)
Theorem tag_names_written_unescaped (file : string) :
  (forall subtype,
     EmitString file (PrimitiveSubtypeName subtype)
     = file ++ q (PrimitiveSubtypeName subtype))
  /\ (forall subtype,
        EmitString file (HandleSubtypeName subtype)
        = file ++ q (HandleSubtypeName subtype))
  /\ (forall kind,
        EmitString file (LiteralKindName kind) = file ++ q (LiteralKindName kind))
  /\ (forall kind,
        EmitString file (TypeKindName kind) = file ++ q (TypeKindName kind))
  /\ (forall kind,
        EmitString file (ConstantKindName kind)
        = file ++ q (ConstantKindName kind)).
Proof.
  repeat split; intros tag; rewrite EmitString_quoted;
    unfold quoted, q; f_equal; now destruct tag.
Qed.

(** ** Arrays and objects *)

(** X7: the array rule, for any element type: when [Generate] prints every
    element of the collection, [GenerateArray] prints the array of the
    elements in their order -- [[]] for the empty collection -- and restores
    the counter. *)
Theorem GenerateArray_rule {T} `{Generator T} (f : T -> json)
    (collection : list T) :
  (forall x, In x collection -> prints (Generate x) (f x)) ->
  prints (GenerateArray collection) (JArray (map f collection))
  /\ restores_indent (GenerateArray collection).
Proof.
  intros Hall.
  pose proof (GenerateArray_prints f collection Hall) as Hp.
  split; [exact Hp | exact (prints_restores_indent _ _ Hp)].
Qed.

Lemma GenerateArray_rule_witness :
  (forall x, In x [true; false] -> prints (Generate x) (JBool x))
  /\ prints (GenerateArray [true; false]) (JArray (map JBool [true; false]))
  /\ restores_indent (GenerateArray [true; false]).
Proof.
  assert (Hall : forall x, In x [true; false] -> prints (Generate x) (JBool x)).
  { intros x _ file n. destruct x; reflexivity. }
  split; [exact Hall|].
  exact (GenerateArray_rule JBool [true; false] Hall).
Defined.

(** X8: the document of a library without declarations: the five
    collections are written as [[]] and the declaration map as [{}], each on
    the line of its key. *)
Theorem document_of_empty_library (name : flat.Name) (order : list flat.Name) :
  document (flat.Library.mk name [] [] [] [] [] order) =
  lines ["{";
         "  " ++ quoted "name" ++ ": " ++ quoted (LongName name) ++ ",";
         "  " ++ quoted "library_dependencies" ++ ": [],";
         "  " ++ quoted "const_declarations" ++ ": [],";
         "  " ++ quoted "enum_declarations" ++ ": [],";
         "  " ++ quoted "interface_declarations" ++ ": [],";
         "  " ++ quoted "struct_declarations" ++ ": [],";
         "  " ++ quoted "union_declarations" ++ ": [],";
         "  " ++ quoted "declaration_order" ++ ": "
              ++ print_json 1 (JArray (map json_of_Name order)) ++ ",";
         "  " ++ quoted "declarations" ++ ": {}";
         "}";
         ""].
Proof.
  rewrite document_prints. unfold json_of_Library, declaration_map.
  cbn [flat.Library.library_name_ flat.Library.const_declarations_
       flat.Library.enum_declarations_ flat.Library.interface_declarations_
       flat.Library.struct_declarations_ flat.Library.union_declarations_
       flat.Library.declaration_order_ declaration_entries map app].
  rewrite print_json_object. change (0 + 1) with 1.
  cbn [print_more_members]. unfold print_member. cbn [fst snd].
  unfold json_of_Name at 1.
  set (order_text := print_json 1 (JArray (map json_of_Name order))).
  cbn [print_json]. subst order_text. unfold lines. cbn [String.concat].
  change (newline_indent 1) with (String linefeed "  ").
  change (newline_indent 0) with (str linefeed).
  rewrite !append_assoc. cbn [append str]. reflexivity.
Qed.

(** ** The members of every node *)

(** X9: a method is written with its ordinal, name and has_request; the
    request and its size follow only when has_request is set; then
    has_response, and the response and its size only when has_response is
    set.  Request and response data of a method whose flag is not set are
    not written. *)
Theorem method_members (value : flat.Interface.Method.t) :
  prints (Generate value)
    (JObject (
       [("ordinal", JNumber (flat.Value (flat.Interface.Method.ordinal value)));
        ("name", JString (raw.data (raw.location
                                      (flat.Interface.Method.name value))));
        ("has_request", JBool (flat.Interface.Method.has_request value))]
       ++ (if flat.Interface.Method.has_request value
           then [("maybe_request",
                  JArray (map json_of_Parameter
                              (flat.Interface.Method.maybe_request value)));
                 ("maybe_request_size",
                  JNumber (flat.Interface.Method.maybe_request_size value))]
           else [])
       ++ [("has_response", JBool (flat.Interface.Method.has_response value))]
       ++ (if flat.Interface.Method.has_response value
           then [("maybe_response",
                  JArray (map json_of_Parameter
                              (flat.Interface.Method.maybe_response value)));
                 ("maybe_response_size",
                  JNumber (flat.Interface.Method.maybe_response_size value))]
           else []))%list).
Proof. exact (Generate_Method_prints value). Qed.

(** X10: the members of the declarations and of their parts, in the order
    they are written: a Const has name, type, value; an Enum member name,
    value; an Interface name, methods; a Parameter and a Union member type,
    name, offset; a Struct and a Union name, members, size.  Sizes, offsets
    are written as numbers, names as strings. *)
Theorem declaration_members :
  (forall name type value,
     prints (Generate (flat.Const.mk name type value))
            (JObject [("name", JString (LongName name));
                      ("type", json_of_Type type);
                      ("value", json_of_Constant value)]))
  /\ (forall name value,
        prints (Generate (flat.Enum.Member.mk name value))
               (JObject [("name", JString (raw.data (raw.location name)));
                         ("value", json_of_Constant value)]))
  /\ (forall name methods,
        prints (Generate (flat.Interface.mk name methods))
               (JObject [("name", JString (LongName name));
                         ("methods", JArray (map json_of_Method methods))]))
  /\ (forall type name offset,
        prints (Generate (flat.Interface.Method.Parameter_.mk type name offset))
               (JObject [("type", json_of_Type type);
                         ("name", JString (raw.data (raw.location name)));
                         ("offset", JNumber offset)]))
  /\ (forall name members size,
        prints (Generate (flat.Struct.mk name members size))
               (JObject [("name", JString (LongName name));
                         ("members",
                          JArray (map json_of_Struct_Member members));
                         ("size", JNumber size)]))
  /\ (forall name members size,
        prints (Generate (flat.Union.mk name members size))
               (JObject [("name", JString (LongName name));
                         ("members",
                          JArray (map json_of_Union_Member members));
                         ("size", JNumber size)]))
  /\ (forall type name offset,
        prints (Generate (flat.Union.Member.mk type name offset))
               (JObject [("type", json_of_Type type);
                         ("name", JString (raw.data (raw.location name)));
                         ("offset", JNumber offset)])).
Proof.
  repeat split; intros.
  - exact (Generate_Const_prints (flat.Const.mk name type value)).
  - exact (Generate_Enum_Member_prints (flat.Enum.Member.mk name value)).
  - exact (Generate_Interface_prints (flat.Interface.mk name methods)).
  - exact (Generate_Parameter_prints
             (flat.Interface.Method.Parameter_.mk type name offset)).
  - exact (Generate_Struct_prints (flat.Struct.mk name members size)).
  - exact (Generate_Union_prints (flat.Union.mk name members size)).
  - exact (Generate_Union_Member_prints
             (flat.Union.Member.mk type name offset)).
Qed.

(** X11: the members of the types other than the unbounded Vector and
    String: an Array has kind, element_type, element_count; a bounded Vector
    kind, element_type, maybe_element_count, nullable; a bounded String kind,
    maybe_element_count, nullable; a Handle and a Request kind, subtype,
    nullable -- the subtype of a Handle is the name of the handle subtype,
    that of a Request an array of identifiers; a Primitive kind, subtype; an
    Identifier type kind, identifier, nullable. *)
Theorem type_members :
  (forall element_type element_count,
     prints (Generate (raw.ArrayType element_type element_count))
            (JObject [("kind", JString "array");
                      ("element_type", json_of_Type element_type);
                      ("element_count", json_of_Constant element_count)]))
  /\ (forall element_type bound nullability,
        prints (Generate (raw.VectorType element_type (Some bound)
                                         nullability))
               (JObject [("kind", JString "vector");
                         ("element_type", json_of_Type element_type);
                         ("maybe_element_count", json_of_Constant bound);
                         ("nullable", json_of_Nullability nullability)]))
  /\ (forall bound nullability,
        prints (Generate (raw.StringType (Some bound) nullability))
               (JObject [("kind", JString "string");
                         ("maybe_element_count", json_of_Constant bound);
                         ("nullable", json_of_Nullability nullability)]))
  /\ (forall subtype nullability,
        prints (Generate (raw.HandleType subtype nullability))
               (JObject [("kind", JString "handle");
                         ("subtype", JString (HandleSubtypeName subtype));
                         ("nullable", json_of_Nullability nullability)]))
  /\ (forall subtype nullability,
        prints (Generate (raw.RequestType subtype nullability))
               (JObject [("kind", JString "request");
                         ("subtype",
                          JArray (map json_of_Identifier
                                      (raw.components subtype)));
                         ("nullable", json_of_Nullability nullability)]))
  /\ (forall subtype,
        prints (Generate (raw.PrimitiveType subtype))
               (JObject [("kind", JString "primitive");
                         ("subtype",
                          JString (PrimitiveSubtypeName subtype))]))
  /\ (forall identifier nullability,
        prints (Generate (raw.IdentifierType identifier nullability))
               (JObject [("kind", JString "identifier");
                         ("identifier",
                          JArray (map json_of_Identifier
                                      (raw.components identifier)));
                         ("nullable", json_of_Nullability nullability)])).
Proof.
  repeat split; intros;
    match goal with
    | |- prints (Generate ?v) _ => exact (Generate_Type_prints v)
    end.
Qed.

(** X12: the members of the literals other than String and of the
    constants: the value of a Numeric literal is its source text written as a
    string, between quotes and escaped, not as a number; a True, False or
    Default literal has the kind member alone; an Identifier constant has
    kind and the identifier as an array, a Literal constant kind and the
    literal's object. *)
Theorem literal_and_constant_members :
  (forall location,
     prints (Generate (raw.NumericLiteral location))
            (JObject [("kind", JString "numeric");
                      ("value", JString (raw.data location))]))
  /\ prints (Generate raw.TrueLiteral) (JObject [("kind", JString "true")])
  /\ prints (Generate raw.FalseLiteral) (JObject [("kind", JString "false")])
  /\ prints (Generate raw.DefaultLiteral)
            (JObject [("kind", JString "default")])
  /\ (forall identifier,
        prints (Generate (raw.IdentifierConstant identifier))
               (JObject [("kind", JString "identifier");
                         ("identifier",
                          JArray (map json_of_Identifier
                                      (raw.components identifier)))]))
  /\ (forall literal,
        prints (Generate (raw.LiteralConstant literal))
               (JObject [("kind", JString "literal");
                         ("literal", json_of_Literal literal)])).
Proof.
  repeat split; intros;
    match goal with
    | |- prints (@Generate raw.Literal _ ?v) _ =>
        exact (Generate_Literal_prints v)
    | |- prints (@Generate raw.Constant _ ?v) _ =>
        exact (Generate_Constant_prints v)
    end.
Qed.

(** ** The declaration map and the stream *)

(** X13: the declaration map has as many entries as the library has
    declarations; an entry is written for every declaration even when two
    declarations have the same name, which then gives the object the same
    key twice: nothing is merged and nothing replaced. *)
Theorem declaration_map_keeps_every_entry :
  (forall library_,
     prints (GenerateObject (GenerateDeclarationMap library_))
            (JObject (declaration_map library_))
     /\ length (declaration_map library_) =
        (length (flat.Library.const_declarations_ library_)
         + length (flat.Library.enum_declarations_ library_)
         + length (flat.Library.interface_declarations_ library_)
         + length (flat.Library.struct_declarations_ library_)
         + length (flat.Library.union_declarations_ library_))%nat)
  /\ (forall library_name shared const_type const_value enum_type
             enum_members order,
        prints (GenerateObject (GenerateDeclarationMap
                  (flat.Library.mk library_name
                     [flat.Const.mk shared const_type const_value]
                     [flat.Enum.mk shared enum_type enum_members]
                     [] [] [] order)))
               (JObject [(LongName shared, JString "const");
                         (LongName shared, JString "enum")])).
Proof.
  split.
  - intros library_. split; [exact (GenerateDeclarationMap_prints library_)|].
    unfold declaration_map, declaration_entries.
    rewrite !length_app, !length_map. lia.
  - intros.
    exact (GenerateDeclarationMap_prints
             (flat.Library.mk library_name
                [flat.Const.mk shared const_type const_value]
                [flat.Enum.mk shared enum_type enum_members]
                [] [] [] order)).
Qed.

(** X14: [ProduceJSON] does not clear the stream and does not read the
    counter it finds: the text it hands over is what the stream held
    followed by the document of the library, whatever the state before. *)
Theorem ProduceJSON_appends_document (library_ : flat.Library.t)
    (g : JSONGenerator) :
  fst (ProduceJSON library_ g) = json_file_ g ++ document library_.
Proof. now rewrite ProduceJSON_run, document_prints. Qed.
